(** * orcaslicer_tool_shutdown.py: automatic tool shutdown after last use

    A shallow embedding of [ToolShutdownProcessor] and the properties of its
    analysis, planning and insertion steps.

    Conventions of the model.
    - A line is the text [readlines] returns for it, kept as its UTF-8 bytes
      ([string]).  The character classes of Python ([str.strip], [\s], [\d],
      [\b], [str.lower]) are decided on ASCII as Python decides them; a byte
      above 127 belongs to no class (the symbols the script itself writes,
      such as the degree sign and the arrows, are in no class in Python
      either).
    - A Python [float] is an IEEE 754 binary64 number ([spec_float] with
      precision 53 and maximal exponent 1024); [float(text)] is the decimal
      value of the text rounded to nearest-even.
    - [defaultdict] is a finite map together with the insertion of the
      default that a read of a missing key performs.
    - A tool number is an arbitrary-precision natural number ([N]); a line
      index is a [nat].
    - The order in which a [for] loop walks a [set] is a parameter
      ([set_iter]); the statements that depend on it hold for every order
      that yields each element once.
    - A file is its text; the time stamp of the report is a parameter.
      What the script prints is left out, and opening, reading and writing
      files are taken to succeed.
    - The files [main] sees are the texts of the paths that exist, a path
      naming one file; [main] starts when [argparse] has read the
      arguments. *)

From Stdlib Require Import ZArith NArith String Ascii List.
From Stdlib Require Import Floats.SpecFloat DecimalString DecimalPos DecimalN.
From stdpp Require Import gmap strings list sorting.

#[local] Set Warnings "-clear-no-such-hyp".

(** ** Characters *)

Definition code (c : ascii) : N := N_of_ascii c.

(** [str.isspace] on ASCII: tab, line feed, vertical tab, form feed,
    carriage return, the four separators 0x1c..0x1f and the space. *)
Definition isspace (c : ascii) : bool :=
  let n := code c in
  ((9 <=? n) && (n <=? 13) || (28 <=? n) && (n <=? 32))%N.

Definition isdigit (c : ascii) : bool :=
  let n := code c in ((48 <=? n) && (n <=? 57))%N.

Definition isupper (c : ascii) : bool :=
  let n := code c in ((65 <=? n) && (n <=? 90))%N.

Definition islower (c : ascii) : bool :=
  let n := code c in ((97 <=? n) && (n <=? 122))%N.

(** [\w]: a letter, a digit or the underscore. *)
Definition isword (c : ascii) : bool :=
  isdigit c || isupper c || islower c || Ascii.eqb c "_".

Definition lower_char (c : ascii) : ascii :=
  if isupper c then ascii_of_N (code c + 32) else c.

Definition newline : ascii := "010".

(** ** Strings *)

Fixpoint lstrip (s : string) : string :=
  match s with
  | String c r => if isspace c then lstrip r else s
  | EmptyString => EmptyString
  end.

Fixpoint rstrip (s : string) : string :=
  match s with
  | EmptyString => EmptyString
  | String c r =>
      match rstrip r with
      | EmptyString => if isspace c then EmptyString else String c EmptyString
      | r' => String c r'
      end
  end.

(** [s.strip()] *)
Definition strip (s : string) : string := rstrip (lstrip s).

(** [s.startswith(p)] *)
Fixpoint startswith (p s : string) : bool :=
  match p, s with
  | EmptyString, _ => true
  | String a p', String b s' => Ascii.eqb a b && startswith p' s'
  | String _ _, EmptyString => false
  end.

(** [p in s] *)
Fixpoint contains (p s : string) : bool :=
  startswith p s ||
  match s with
  | String _ s' => contains p s'
  | EmptyString => false
  end.

(** [s.lower()] *)
Fixpoint lower (s : string) : string :=
  match s with
  | EmptyString => EmptyString
  | String c r => String (lower_char c) (lower r)
  end.

(** [s[:2]] *)
Definition take2 (s : string) : string := String.substring 0 2 s.

(** The longest run of digits at the head of [s], and what follows it. *)
Fixpoint span_digits (s : string) : string * string :=
  match s with
  | String c r =>
      if isdigit c then let '(d, t) := span_digits r in (String c d, t)
      else (EmptyString, s)
  | EmptyString => (EmptyString, EmptyString)
  end.

(** [str(n)] and the [{n}] of an f-string, for a natural number. *)
Definition str_N (n : N) : string := NilEmpty.string_of_uint (N.to_uint n).
Definition str_nat (n : nat) : string := str_N (N.of_nat n).

(** [int(text)] on a run of digits. *)
Fixpoint int_acc (acc : N) (s : string) : N :=
  match s with
  | EmptyString => acc
  | String c r => int_acc (acc * 10 + (code c - 48))%N r
  end.
Definition py_int (text : string) : N := int_acc 0 text.

(** ** Floating point numbers *)

Definition prec : Z := 53.
Definition emax : Z := 1024.

(** The binary64 number nearest to [(-1)^neg * m / d]. *)
Definition float_of_ratio (neg : bool) (m : N) (d : positive) : spec_float :=
  match m with
  | N0 => S754_zero neg
  | Npos p => SFdiv prec emax (S754_finite neg p 0) (S754_finite false d 0)
  end.

(** [10 ** n] *)
Definition pow10 (n : nat) : positive := Nat.iter n (Pos.mul 10) 1%positive.

(** [float(text)] for a text of the shape "[-+]?\d*\.?\d+", the only texts
    the script converts. *)
Definition py_float (text : string) : spec_float :=
  let '(neg, body) :=
    match text with
    | String c r =>
        if Ascii.eqb c "-" then (true, r)
        else if Ascii.eqb c "+" then (false, r)
        else (false, text)
    | EmptyString => (false, EmptyString)
    end in
  let '(ip, rest) := span_digits body in
  let fp :=
    match rest with
    | String c r => if Ascii.eqb c "." then fst (span_digits r) else EmptyString
    | EmptyString => EmptyString
    end in
  float_of_ratio neg (py_int (ip +:+ fp)) (pow10 (String.length fp)).

(** The literals [0.0] and [1e-6]. *)
Definition float_zero : spec_float := S754_zero false.
Definition tolerance : spec_float := float_of_ratio false 1 1000000.

(** [a + b] and [a > b] on floats. *)
Definition float_add (a b : spec_float) : spec_float := SFadd prec emax a b.
Definition float_gt (a b : spec_float) : bool := SFltb b a.

(** ** The regular expressions of [__init__] *)

(** The pattern "\d*\.?\d+" at the head of [s]: the text it captures.  The
    digits are taken greedily; a dot is taken only when a digit follows it,
    otherwise the match ends with the last digit before the dot. *)
Definition re_unsigned (s : string) : option string :=
  let '(d1, r) := span_digits s in
  let plain := if String.eqb d1 EmptyString then None else Some d1 in
  match r with
  | String c r' =>
      if Ascii.eqb c "." then
        let '(d2, _) := span_digits r' in
        if String.eqb d2 EmptyString then plain
        else Some (d1 +:+ String "." d2)
      else plain
  | EmptyString => plain
  end.

(** The pattern "[-+]?\d*\.?\d+" at the head of [s].  A sign that is present
    has to be taken: without it the next character is the sign, which starts
    neither digits nor a dot. *)
Definition re_number (s : string) : option string :=
  match s with
  | String c r =>
      if Ascii.eqb c "-" || Ascii.eqb c "+"
      then String c <$> re_unsigned r
      else re_unsigned s
  | EmptyString => None
  end.

(** [re_e], the pattern "(?<!;)\bE([-+]?\d*\.?\d+)" used with [search]:
    group 1 of the leftmost match.  [prev] is the character before [s]
    ([None] at the start of the line).  At an [E] the lookbehind asks that
    the character before is not a semicolon, and [\b] that it is not a word
    character. *)
Fixpoint re_e_search_from (prev : option ascii) (s : string) : option string :=
  match s with
  | EmptyString => None
  | String c r =>
      let before_ok :=
        match prev with
        | None => true
        | Some q => negb (Ascii.eqb q ";") && negb (isword q)
        end in
      let here := if Ascii.eqb c "E" && before_ok then re_number r else None in
      match here with
      | Some g => Some g
      | None => re_e_search_from (Some c) r
      end
  end.

Definition re_e_search (line : string) : option string :=
  re_e_search_from None line.

(** Any characters up to the end of the string (a greedy dot-star, then the
    dollar): no line feed, except one that ends the string. *)
Fixpoint dot_star_end (s : string) : bool :=
  match s with
  | EmptyString => true
  | String c r =>
      if Ascii.eqb c newline then String.eqb r EmptyString else dot_star_end r
  end.

(** [re_t], used with [match]: group 1.  The pattern reads: start, white
    space, [T], one or more digits (the group), white space, an optional
    comment (a semicolon and all that follows), end.  The digits and the
    white space are taken greedily; after them the string ends, or a
    semicolon starts a comment that runs to the end. *)
Definition re_t_match (line : string) : option string :=
  match lstrip line with
  | String c r =>
      if Ascii.eqb c "T" then
        let '(d, r1) := span_digits r in
        if String.eqb d EmptyString then None
        else
          match lstrip r1 with
          | EmptyString => Some d
          | String c2 r2 =>
              if Ascii.eqb c2 ";" && dot_star_end r2 then Some d else None
          end
      else None
  | EmptyString => None
  end.

(** The pattern ".*E([-+]?\d*\.?\d+)" at the head of [s], ignoring case: the
    star is greedy, so the last [E] before the first line feed that a number
    follows wins. *)
Fixpoint re_last_e_number (s : string) : option string :=
  match s with
  | EmptyString => None
  | String c r =>
      if Ascii.eqb c newline then None
      else
        match re_last_e_number r with
        | Some g => Some g
        | None =>
            if Ascii.eqb (lower_char c) "e" then re_number r else None
        end
  end.

(** [re_g92_e], the pattern "^\s*G92\s+.*E([-+]?\d*\.?\d+)" with
    [re.IGNORECASE], used with [match]: group 1.  The white space after
    [G92] is taken greedily; giving some of it back to the dot-star opens no
    new match, since white space is no [E]. *)
Definition re_g92_e_match (line : string) : option string :=
  match lstrip line with
  | String g (String n9 (String n2 (String w r))) =>
      if Ascii.eqb (lower_char g) "g" && Ascii.eqb n9 "9" && Ascii.eqb n2 "2"
         && isspace w
      then re_last_e_number (lstrip r)
      else None
  | _ => None
  end.

(** ** The processor *)

Inductive ExtrusionMode := ABS | REL.

(** The [config] dictionary. *)
Record Config := mkConfig {
  cfg_shutdown_heater : bool;
  cfg_shutdown_fan : bool;
  cfg_add_comments : bool;
  cfg_create_backup : bool;
  cfg_generate_report : bool
}.

Definition default_config : Config :=
  {| cfg_shutdown_heater := true;
     cfg_shutdown_fan := false;
     cfg_add_comments := true;
     cfg_create_backup := true;
     cfg_generate_report := true |}.

(** The attributes of a [ToolShutdownProcessor]. *)
Record Processor := mkProcessor {
  gcode_file : string;
  lines : list string;
  tool_usage : gmap N (list nat);
  tool_changes : gmap N nat;
  current_tool : N;
  total_tools : gset N;
  shutdown_inserted : gset N;
  dry_run : bool;
  e_mode : ExtrusionMode;
  e_pos : spec_float;
  config : Config
}.

(** [ToolShutdownProcessor.__init__] *)
Definition init (file : string) (dry : bool) : Processor :=
  {| gcode_file := file;
     lines := [];
     tool_usage := ∅;
     tool_changes := ∅;
     current_tool := 0%N;
     total_tools := ∅;
     shutdown_inserted := ∅;
     dry_run := dry;
     e_mode := ABS;
     e_pos := float_zero;
     config := default_config |}.

Definition set_lines (v : list string) (p : Processor) : Processor :=
  mkProcessor (gcode_file p) v (tool_usage p) (tool_changes p)
    (current_tool p) (total_tools p) (shutdown_inserted p) (dry_run p)
    (e_mode p) (e_pos p) (config p).

Definition set_tool_usage (v : gmap N (list nat)) (p : Processor) : Processor :=
  mkProcessor (gcode_file p) (lines p) v (tool_changes p)
    (current_tool p) (total_tools p) (shutdown_inserted p) (dry_run p)
    (e_mode p) (e_pos p) (config p).

Definition set_tool_changes (v : gmap N nat) (p : Processor) : Processor :=
  mkProcessor (gcode_file p) (lines p) (tool_usage p) v
    (current_tool p) (total_tools p) (shutdown_inserted p) (dry_run p)
    (e_mode p) (e_pos p) (config p).

Definition set_current_tool (v : N) (p : Processor) : Processor :=
  mkProcessor (gcode_file p) (lines p) (tool_usage p) (tool_changes p)
    v (total_tools p) (shutdown_inserted p) (dry_run p)
    (e_mode p) (e_pos p) (config p).

Definition set_total_tools (v : gset N) (p : Processor) : Processor :=
  mkProcessor (gcode_file p) (lines p) (tool_usage p) (tool_changes p)
    (current_tool p) v (shutdown_inserted p) (dry_run p)
    (e_mode p) (e_pos p) (config p).

Definition set_shutdown_inserted (v : gset N) (p : Processor) : Processor :=
  mkProcessor (gcode_file p) (lines p) (tool_usage p) (tool_changes p)
    (current_tool p) (total_tools p) v (dry_run p)
    (e_mode p) (e_pos p) (config p).

Definition set_e_mode (v : ExtrusionMode) (p : Processor) : Processor :=
  mkProcessor (gcode_file p) (lines p) (tool_usage p) (tool_changes p)
    (current_tool p) (total_tools p) (shutdown_inserted p) (dry_run p)
    v (e_pos p) (config p).

Definition set_e_pos (v : spec_float) (p : Processor) : Processor :=
  mkProcessor (gcode_file p) (lines p) (tool_usage p) (tool_changes p)
    (current_tool p) (total_tools p) (shutdown_inserted p) (dry_run p)
    (e_mode p) v (config p).

(** A read [d[k]] of a [defaultdict]: the value, and the dictionary, which
    gains the default when the key was missing. *)
Definition dd_get {V} (default : V) (k : N) (d : gmap N V) : V * gmap N V :=
  match d !! k with
  | Some v => (v, d)
  | None => (default, <[k := default]> d)
  end.

(** [self.tool_changes[tool] += 1] *)
Definition count_change (tool : N) (p : Processor) : Processor :=
  let '(n, d) := dd_get 0 tool (tool_changes p) in
  set_tool_changes (<[tool := n + 1]> d) p.

(** [self.tool_usage[tool].append(line_num)] *)
Definition record_usage (tool : N) (line_num : nat) (p : Processor)
  : Processor :=
  let '(l, d) := dd_get [] tool (tool_usage p) in
  set_tool_usage (<[tool := l ++ [line_num]]> d) p.

(** [self.total_tools.add(tool)] *)
Definition add_tool (tool : N) (p : Processor) : Processor :=
  set_total_tools ({[tool]} ∪ total_tools p) p.

(** ** The usage analyzer *)

(** The local variables of [analyze_tool_usage]. *)
Record Locals := mkLocals {
  previous_tool : option N;
  in_start_gcode : bool;
  first_tool_after_start : bool
}.

Definition init_locals : Locals :=
  {| previous_tool := None;
     in_start_gcode := true;
     first_tool_after_start := true |}.

(** [line and line[0] == 'G' and line[:2] in ('G0', 'G1')] *)
Definition is_move (line : string) : bool :=
  match line with
  | EmptyString => false
  | String c _ =>
      Ascii.eqb c "G"
      && (String.eqb (take2 line) "G0" || String.eqb (take2 line) "G1")
  end.

(** The branch of a tool selection: [new_tool] is the number on the line. *)
Definition select_tool (new_tool : N) (st : Locals * Processor)
  : Locals * Processor :=
  let '(loc, p) := st in
  let '(loc, p) :=
    if negb (in_start_gcode loc) then
      if first_tool_after_start loc then
        (mkLocals (previous_tool loc) (in_start_gcode loc) false, p)
      else
        match previous_tool loc with
        | Some prev =>
            if negb (N.eqb prev new_tool) then (loc, count_change new_tool p)
            else (loc, p)
        | None => (loc, p)
        end
    else (loc, p) in
  (mkLocals (Some new_tool) (in_start_gcode loc) (first_tool_after_start loc),
   add_tool new_tool (set_current_tool new_tool p)).

(** The branch of a move that carries the extrusion value [e_value]. *)
Definition track_extrusion (line_num : nat) (e_value : spec_float)
    (p : Processor) : Processor :=
  let '(is_extrusion, p) :=
    match e_mode p with
    | ABS =>
        (float_gt e_value (float_add (e_pos p) tolerance),
         set_e_pos e_value p)
    | REL => (float_gt e_value tolerance, p)
    end in
  if is_extrusion
  then add_tool (current_tool p) (record_usage (current_tool p) line_num p)
  else p.

(** One turn of the loop of [analyze_tool_usage]. *)
Definition analyze_line (line_num : nat) (raw_line : string)
    (st : Locals * Processor) : Locals * Processor :=
  let '(loc, p) := st in
  let line := strip raw_line in
  let loc :=
    if contains ";LAYER:" line || contains ";layer" (lower line)
    then mkLocals (previous_tool loc) false (first_tool_after_start loc)
    else loc in
  if startswith "M82" line then (loc, set_e_mode ABS p)
  else if startswith "M83" line then (loc, set_e_mode REL p)
  else
    match re_g92_e_match line with
    | Some g => (loc, set_e_pos (py_float g) p)
    | None =>
        match re_t_match line with
        | Some g => select_tool (py_int g) (loc, p)
        | None =>
            if is_move line then
              match re_e_search line with
              | None => (loc, p)
              | Some g => (loc, track_extrusion line_num (py_float g) p)
              end
            else (loc, p)
        end
    end.

(** The instruction classifier: what the chain of tests of [analyze_line]
    takes a line for, the first test that succeeds deciding. *)
Inductive Instruction :=
  | ModeSet (mode : ExtrusionMode)
  | OriginReset (value : spec_float)
  | ToolSelect (id : N)
  | MoveWithExtrusion (value : spec_float)
  | Other.

Definition classify (raw_line : string) : Instruction :=
  let line := strip raw_line in
  if startswith "M82" line then ModeSet ABS
  else if startswith "M83" line then ModeSet REL
  else
    match re_g92_e_match line with
    | Some g => OriginReset (py_float g)
    | None =>
        match re_t_match line with
        | Some g => ToolSelect (py_int g)
        | None =>
            if is_move line then
              match re_e_search line with
              | None => Other
              | Some g => MoveWithExtrusion (py_float g)
              end
            else Other
        end
    end.

(** The region boundary test made on every line before it is classified. *)
Definition is_layer_marker (raw_line : string) : bool :=
  let line := strip raw_line in
  contains ";LAYER:" line || contains ";layer" (lower line).

(** The loop over [enumerate(self.lines)], from index [line_num] on. *)
Fixpoint analyze_from (line_num : nat) (ls : list string)
    (st : Locals * Processor) : Locals * Processor :=
  match ls with
  | [] => st
  | raw_line :: rest =>
      analyze_from (S line_num) rest (analyze_line line_num raw_line st)
  end.

(** [sorted(s)] for a set of tool numbers. *)
Definition sorted_tools (s : gset N) : list N := merge_sort N.le (elements s).

(** One turn of the loop that prints the summary: it reads both
    dictionaries at [tool], which enters a missing key with its default. *)
Definition summary_line (p : Processor) (tool : N) : Processor :=
  let p := set_tool_changes (snd (dd_get 0 tool (tool_changes p))) p in
  set_tool_usage (snd (dd_get [] tool (tool_usage p))) p.

(** The summary printed after the loop of [analyze_tool_usage]. *)
Definition print_summary (p : Processor) : Processor :=
  foldl summary_line p (sorted_tools (total_tools p)).

(** [analyze_tool_usage] *)
Definition analyze_tool_usage (p : Processor) : Processor :=
  print_summary (snd (analyze_from 0 (lines p) (init_locals, p))).

(** ** The shutdown block *)

Definition nl : string := String newline EmptyString.

(** [generate_shutdown_commands] *)
Definition generate_shutdown_commands (cfg : Config) (tool_num : N)
  : list string :=
  (if cfg_add_comments cfg then
     [ "; ========================================" +:+ nl;
       "; AUTO-SHUTDOWN: Tool T" +:+ str_N tool_num +:+ nl;
       "; Overrides OrcaSlicer standby (100°C → 0°C)" +:+ nl;
       "; ========================================" +:+ nl ]
   else [])
  ++ (if cfg_shutdown_heater cfg then
        [ "M104 S0 T" +:+ str_N tool_num +:+ "          ; Hotend T"
          +:+ str_N tool_num +:+ " shutdown" +:+ nl ]
      else [])
  ++ (if cfg_shutdown_fan cfg then
        [ "M106 P" +:+ str_N tool_num
          +:+ " S0          ; Part cooling fan T" +:+ str_N tool_num
          +:+ " off" +:+ nl ]
      else [])
  ++ (if cfg_add_comments cfg then
        [ "; Energy savings: Tool T" +:+ str_N tool_num
          +:+ " fully deactivated" +:+ nl;
          nl ]
      else []).


(** ** The insertion planner *)

(** The text [find_last_standby_command] looks for. *)
Definition standby_marker (tool_num : N) : string :=
  "M104 S100 T" +:+ str_N tool_num.

(** The loop of [find_last_standby_command] over the indices [idxs]; an
    index of [range(len(self.lines))] is never out of range. *)
Fixpoint scan_standby (idxs : list nat) (ls : list string) (tool_num : N)
  : option nat :=
  match idxs with
  | [] => None
  | idx :: rest =>
      match ls !! idx with
      | Some raw =>
          if contains (standby_marker tool_num) (strip raw)
          then Some (idx + 1)
          else scan_standby rest ls tool_num
      | None => scan_standby rest ls tool_num
      end
  end.

(** [range(n - 1, -1, -1)] *)
Definition range_down (n : nat) : list nat := reverse (seq 0 n).

(** [find_last_standby_command]: the index after the standby command, or
    [None]. *)
Definition find_last_standby_command (p : Processor) (tool_num : N)
  : option nat :=
  scan_standby (range_down (length (lines p))) (lines p) tool_num.

(** [find_safe_insertion_point]; the test [if insert_after_standby:] also
    refuses the index 0. *)
Definition find_safe_insertion_point (p : Processor) (last_usage_line : nat)
    (tool : N) : option nat :=
  match find_last_standby_command p tool with
  | Some insert_after_standby =>
      if Nat.eqb insert_after_standby 0 then None
      else Some insert_after_standby
  | None => None
  end.

(** ** The sequence mutator *)

(** [l.insert(i, x)] for an index [i >= 0]: past the end it appends. *)
Definition py_insert {A} (i : nat) (x : A) (l : list A) : list A :=
  take i l ++ x :: drop i l.

(** [for cmd in reversed(cmds): out.insert(insert_at, cmd)] *)
Definition insert_block (insert_at : nat) (cmds out : list string)
  : list string :=
  foldl (fun out cmd => py_insert insert_at cmd out) out (reverse cmds).

(** A read of [self.tool_usage[tool]]: the list, and the processor after the
    read. *)
Definition read_usage (tool : N) (p : Processor) : list nat * Processor :=
  let '(u, d) := dd_get [] tool (tool_usage p) in (u, set_tool_usage d p).

(** A read of [self.tool_changes[tool]]. *)
Definition read_changes (tool : N) (p : Processor) : nat * Processor :=
  let '(n, d) := dd_get 0 tool (tool_changes p) in (n, set_tool_changes d p).

(** The insertion of [x] into a list sorted by descending second component,
    before the first entry that is not greater. *)
Fixpoint insert_desc (x : N * nat) (l : list (N * nat)) : list (N * nat) :=
  match l with
  | [] => [x]
  | y :: r => if Nat.leb (snd y) (snd x) then x :: l else y :: insert_desc x r
  end.

(** [sorted(items, key=lambda x: x[1], reverse=True)]: a stable sort by
    descending last use, entries of equal last use keeping their order. *)
Definition sorted_by_last_use (items : list (N * nat)) : list (N * nat) :=
  foldr insert_desc [] items.

(** One turn of the loop that fills [last_usage]: a tool with a non-empty
    usage list is entered with the maximum of the list. *)
Definition note_last_use (st : list (N * nat) * Processor) (tool : N)
  : list (N * nat) * Processor :=
  let '(items, p) := st in
  let '(u, p) := read_usage tool p in
  match u with
  | [] => (items, p)
  | _ :: _ => (items ++ [(tool, max_list u)], p)
  end.

(** One turn of the loop that applies the insertions. *)
Definition shutdown_tool (st : list string * Processor) (entry : N * nat)
  : list string * Processor :=
  let '(output_lines, p) := st in
  let '(tool, last_line) := entry in
  match find_safe_insertion_point p last_line tool with
  | None => (output_lines, p)
  | Some insert_at =>
      (insert_block insert_at (generate_shutdown_commands (config p) tool)
         output_lines,
       set_shutdown_inserted ({[tool]} ∪ shutdown_inserted p) p)
  end.

(** [sum(self.tool_changes.values())] *)
Definition total_tool_changes (p : Processor) : nat :=
  map_fold (fun _ n acc => n + acc) 0 (tool_changes p).

(** The place [insert_report] finds in [enumerate(output_lines)] from index
    [idx] on; 0 when no line qualifies. *)
Fixpoint report_position (idx : nat) (output_lines : list string) : nat :=
  match output_lines with
  | [] => 0
  | line :: rest =>
      if contains ";LAYER:0" line || contains "thumbnail end" (lower line)
      then (if contains ";LAYER:0" line then idx else idx + 1)
      else report_position (S idx) rest
  end.

(** ** Files *)

Definition carriage_return : ascii := "013".

(** The translation of line ends that reading in text mode performs. *)
Fixpoint universal_newlines (s : string) : string :=
  match s with
  | EmptyString => EmptyString
  | String c r =>
      if Ascii.eqb c carriage_return then
        match r with
        | String c2 r2 =>
            if Ascii.eqb c2 newline then String newline (universal_newlines r2)
            else String newline (universal_newlines r)
        | EmptyString => String newline EmptyString
        end
      else String c (universal_newlines r)
  end.

(** The lines of a text, each with the line feed that ends it. *)
Fixpoint split_lines (s : string) : list string :=
  match s with
  | EmptyString => []
  | String c r =>
      if Ascii.eqb c newline then String c EmptyString :: split_lines r
      else
        match split_lines r with
        | [] => [String c EmptyString]
        | l :: ls => String c l :: ls
        end
  end.

(** [f.readlines()] on a file whose text is [text]. *)
Definition readlines (text : string) : list string :=
  split_lines (universal_newlines text).

(** The text [f.writelines(ls)] leaves in the file. *)
Definition writelines (ls : list string) : string :=
  foldr String.append EmptyString ls.

(** What a run of [process] leaves behind: its return value, the lines it
    built, the lines written to the G-code file and to the backup (if any),
    and the processor. *)
Record Outcome := mkOutcome {
  success : bool;
  built : list string;
  saved : option (list string);
  backup : option (list string);
  final : Processor
}.

Section Pipeline.

(** The order in which a [for] loop walks a Python [set] is not specified;
    [set_iter] is that order. *)
Variable set_iter : gset N -> list N.

(** [datetime.now().strftime(...)] at the time of the report. *)
Variable timestamp : string.

(** The dictionary [last_usage] as its [items()]: the tools with a
    non-empty usage list, in the order the set yields them. *)
Definition last_usage_items (p : Processor)
  : list (N * nat) * Processor :=
  foldl note_last_use ([], p) (set_iter (total_tools p)).

(** [insert_shutdown_commands] *)
Definition insert_shutdown_commands (p : Processor)
  : list string * Processor :=
  let '(last_usage, p) := last_usage_items p in
  let tools_by_last_use := sorted_by_last_use last_usage in
  foldl shutdown_tool (lines p, p) tools_by_last_use.

(** The lines of the report about one tool. *)
Definition tool_report_lines (tool : N) (changes : nat) (status : string)
  : list string :=
  [ ";   Tool T" +:+ str_N tool +:+ ":" +:+ nl;
    ";     • Changes: " +:+ str_nat changes +:+ "x" +:+ nl;
    ";     • Status: " +:+ status +:+ nl;
    ";" +:+ nl ].

(** One turn of the loop of [generate_report] over the sorted tools. *)
Definition report_tool (st : list string * Processor) (tool : N)
  : list string * Processor :=
  let '(report, p) := st in
  let '(u, p) := read_usage tool p in
  match u with
  | [] => (report, p)
  | _ :: _ =>
      let '(changes, p) := read_changes tool p in
      let status :=
        if decide (tool ∈ shutdown_inserted p)
        then "✓ Auto-Shutdown" else "○ Active until end" in
      (report ++ tool_report_lines tool changes status, p)
  end.

(** The lines of the report before the tools. *)
Definition report_head (p : Processor) : list string :=
  let total_changes := total_tool_changes p in
  [ "; ╔══════════════════════════════════════════════════════════╗" +:+ nl;
    "; ║         AUTOMATIC TOOL SHUTDOWN REPORT                     ║" +:+ nl;
    "; ╚══════════════════════════════════════════════════════════╝" +:+ nl;
    "; Processed on: " +:+ timestamp +:+ nl;
    "; Script: orcaslicer_tool_shutdown.py v1.0" +:+ nl;
    "; Mode: " +:+ (if dry_run p then "DRY-RUN" else "PRODUCTION") +:+ nl;
    ";" +:+ nl;
    "; Overall Statistics:" +:+ nl;
    "; ──────────────────────────────────────────────────────────" +:+ nl;
    ";   • Tools: " +:+ str_nat (size (total_tools p)) +:+ nl;
    ";   • Tool Changes: " +:+ str_nat total_changes +:+ nl;
    ";   • Auto-Shutdowns: " +:+ str_nat (size (shutdown_inserted p)) +:+ nl ]
  ++ (if Nat.ltb 0 total_changes then
        let est_time := total_changes * 20 in
        [ ";   • Tool Change Time: ~" +:+ str_nat (est_time / 60) +:+ "m "
          +:+ str_nat (est_time mod 60) +:+ "s" +:+ nl ]
      else [])
  ++ [ ";" +:+ nl;
       "; Tool Usage:" +:+ nl;
       "; ──────────────────────────────────────────────────────────" +:+ nl ].

(** The lines of the report after the tools. *)
Definition report_foot : list string :=
  [ "; ══════════════════════════════════════════════════════════" +:+ nl;
    "; Script: https://github.com/PrintStructor/orcaslicer-tool-shutdown" +:+ nl;
    "; For updates and documentation, visit the repository above" +:+ nl;
    "; ══════════════════════════════════════════════════════════" +:+ nl;
    nl ].

(** [generate_report] *)
Definition generate_report (p : Processor) : list string * Processor :=
  let '(report, p) :=
    foldl report_tool (report_head p, p) (sorted_tools (total_tools p)) in
  (report ++ report_foot, p).

(** [insert_report] *)
Definition insert_report (output_lines : list string) (p : Processor)
  : list string * Processor :=
  let '(report, p) := generate_report p in
  (insert_block (report_position 0 output_lines) report output_lines, p).

(** [process], on a file that [load_gcode] reads as the lines [content];
    opening, reading and writing the files are taken to succeed. *)
Definition process (content : list string) (p : Processor) : Outcome :=
  let p := set_lines content p in
  let p := analyze_tool_usage p in
  if decide (total_tools p = ∅) then mkOutcome false [] None None p
  else
    let '(output_lines, p) := insert_shutdown_commands p in
    let '(output_lines, p) :=
      if cfg_generate_report (config p) then insert_report output_lines p
      else (output_lines, p) in
    if dry_run p then mkOutcome true output_lines None None p
    else
      mkOutcome true output_lines (Some output_lines)
        (if cfg_create_backup (config p) then Some (lines p) else None) p.

(** The script run on a file of text [text]: the text of the file after
    the run. *)
Definition run_script (dry : bool) (file : string) (text : string)
  : string :=
  match saved (process (readlines text) (init file dry)) with
  | Some ls => writelines ls
  | None => text
  end.

End Pipeline.



(** ** Vocabulary of the statements *)

(** The usage list of a tool: the value of [self.tool_usage[tool]]. *)
Definition usage_list (p : Processor) (tool : N) : list nat :=
  default [] (tool_usage p !! tool).

(** The change count of a tool: the value of [self.tool_changes[tool]]. *)
Definition change_count (p : Processor) (tool : N) : nat :=
  default 0 (tool_changes p !! tool).

(** Between [p] and [p'] the line [line_num] was recorded as an extrusion
    of the tool current in [p]. *)
Definition recorded_extrusion (line_num : nat) (p p' : Processor) : Prop :=
  tool_usage p' =
    <[current_tool p := usage_list p (current_tool p) ++ [line_num]]>
      (tool_usage p)
  /\ total_tools p' = {[current_tool p]} ∪ total_tools p.

(** Between [p] and [p'] nothing was recorded. *)
Definition nothing_recorded (p p' : Processor) : Prop :=
  tool_usage p' = tool_usage p /\ total_tools p' = total_tools p.

(** The test the analyzer makes on an extrusion value [v] in the state
    [p]. *)
Definition exceeds_tolerance (p : Processor) (v : spec_float) : bool :=
  match e_mode p with
  | ABS => float_gt v (float_add (e_pos p) tolerance)
  | REL => float_gt v tolerance
  end.

(** A processor fresh from [__init__] that has loaded [content]. *)
Definition loaded (content : list string) : Processor :=
  set_lines content (init "print.gcode" false).

(** Every character of [s] satisfies [f]. *)
Fixpoint all_chars (f : ascii -> bool) (s : string) : bool :=
  match s with
  | EmptyString => true
  | String c r => f c && all_chars f r
  end.


(** The line of index [k] holds the standby marker of [tool]. *)
Definition standby_at (ls : list string) (tool : N) (k : nat) : bool :=
  match ls !! k with
  | Some raw => contains (standby_marker tool) (strip raw)
  | None => false
  end.

(** [s] is not empty and its last character is not white space. *)
Fixpoint ends_nonspace (s : string) : bool :=
  match s with
  | EmptyString => false
  | String c EmptyString => negb (isspace c)
  | String _ r => ends_nonspace r
  end.

(** The processor without the attributes the analysis never reads. *)
Definition analysis_state (p : Processor) : Processor :=
  mkProcessor EmptyString (lines p) (tool_usage p) (tool_changes p)
    (current_tool p) (total_tools p) (shutdown_inserted p) false
    (e_mode p) (e_pos p) (config p).

(** What holds of the usage lists when the lines before [n] have been
    analyzed from a fresh processor: a tool with a usage list is known,
    every recorded index is below [n], and no index is recorded for two
    tools. *)
Definition usage_inv (n : nat) (p : Processor) : Prop :=
  (forall t, usage_list p t <> [] -> t ∈ total_tools p)
  /\ (forall t k, k ∈ usage_list p t -> k < n)
  /\ (forall t1 t2 k, k ∈ usage_list p t1 -> k ∈ usage_list p t2 -> t1 = t2).

(** The entry of [tool] in [last_usage], if it has one. *)
Definition last_use_entry (p : Processor) (tool : N) : option (N * nat) :=
  match usage_list p tool with
  | [] => None
  | _ :: _ => Some (tool, max_list (usage_list p tool))
  end.

(** The planner finds an insertion point for [tool]. *)
Definition shuts_down (p : Processor) (tool : N) : bool :=
  match find_safe_insertion_point p 0 tool with
  | Some _ => true
  | None => false
  end.

(** The tools of the entries that get a shutdown block, in order. *)
Definition shut_tools (p : Processor) (entries : list (N * nat)) : list N :=
  filter (fun t => shuts_down p t = true) (entries.*1).

(** Two processors that differ at most in dictionary keys entered by
    reads: every attribute and the value of every read agree. *)
Definition same_reads (p q : Processor) : Prop :=
  lines q = lines p /\ config q = config p
  /\ total_tools q = total_tools p
  /\ shutdown_inserted q = shutdown_inserted p
  /\ dry_run q = dry_run p
  /\ (forall t, usage_list q t = usage_list p t)
  /\ (forall t, change_count q t = change_count p t).

(** The entries of [tools_by_last_use] when the set of known tools is
    walked in the order [set_iter]. *)
Definition planned_entries (set_iter : gset N -> list N) (p : Processor)
  : list (N * nat) :=
  sorted_by_last_use (omap (last_use_entry p) (set_iter (total_tools p))).

(** Descending order of last use. *)
Definition last_use_ge (a b : N * nat) : Prop := snd b <= snd a.

(** The variable [tools_by_last_use] of [insert_shutdown_commands]. *)
Definition tools_by_last_use (set_iter : gset N -> list N) (p : Processor)
  : list (N * nat) :=
  sorted_by_last_use (fst (last_usage_items set_iter p)).

(** The order the specification asks for: descending last use, ties broken
    by ascending tool number. *)
Definition spec_order (a b : N * nat) : Prop :=
  snd b < snd a \/ (snd a = snd b /\ (fst a <= fst b)%N).

Global Instance spec_order_dec : RelDecision spec_order.
Proof. intros a b. unfold spec_order. apply _. Defined.

(** The last uses read off the usage map alone: every tool with a non-empty
    list, with the maximum of its list. *)
Definition last_uses (usage : gmap N (list nat)) : list (N * nat) :=
  omap (fun e : N * list nat =>
          match snd e with
          | [] => None
          | _ :: _ => Some (fst e, max_list (snd e))
          end)
       (map_to_list usage).

(** The insertion order of the specification, a function of the usage map
    alone. *)
Definition spec_insertion_order (usage : gmap N (list nat))
  : list (N * nat) :=
  merge_sort spec_order (last_uses usage).

(** The lines [insert_shutdown_commands] builds for the sorted entries. *)
Definition apply_plan (p : Processor) (entries : list (N * nat))
  : list string :=
  fst (foldl shutdown_tool (lines p, p) entries).

(** A file for two tools: tool 0 goes to standby, tool 1 prints and goes to
    standby, tool 0 prints again until the end. *)
Definition two_tool_file : string :=
"M104 S100 T0
T1
G1 X1 E1
M104 S100 T1
T0
G1 X2 E2
".

(** The lines of the report about [tool] in the state [p]: none for a tool
    without usage. *)
Definition tool_report (p : Processor) (tool : N) : list string :=
  match usage_list p tool with
  | [] => []
  | _ :: _ =>
      tool_report_lines tool (change_count p tool)
        (if decide (tool ∈ shutdown_inserted p)
         then "✓ Auto-Shutdown" else "○ Active until end")
  end.

(** The shutdown command of the block of [tool]. *)
Definition heater_off_line (tool : N) : string :=
  "M104 S0 T" +:+ str_N tool +:+ "          ; Hotend T" +:+ str_N tool
  +:+ " shutdown" +:+ nl.

(** How often the line [x] stands in [ls]. *)
Definition occurrences (x : string) (ls : list string) : nat :=
  length (filter (fun l => l = x) ls).

(** [l'] is [l] with lines that satisfy [P] put in between. *)
Inductive weave (P : string -> Prop) : list string -> list string -> Prop :=
  | weave_nil : weave P [] []
  | weave_keep x l l' : weave P l l' -> weave P (x :: l) (x :: l')
  | weave_add x l l' : P x -> weave P l l' -> weave P l (x :: l').

(** A line the analyzer passes over. *)
Definition inert (raw_line : string) : Prop := classify raw_line = Other.

(** Two processors agree on what decides the usage lists: mode, position,
    current tool, known tools, and the length of every usage list. *)
Definition usage_sim (p q : Processor) : Prop :=
  e_mode p = e_mode q /\ e_pos p = e_pos q
  /\ current_tool p = current_tool q /\ total_tools p = total_tools q
  /\ forall t, length (usage_list p t) = length (usage_list q t).

(** A file for one tool that prints and goes to standby. *)
Definition one_tool_file : string :=
"T0
G1 X1 E1
M104 S100 T0
".

(** Neither a line feed nor a carriage return. *)
Definition no_break (c : ascii) : bool :=
  negb (Ascii.eqb c newline) && negb (Ascii.eqb c carriage_return).

(** A line that ends with the only line break it holds, a line feed. *)
Fixpoint full_line (l : string) : bool :=
  match l with
  | EmptyString => false
  | String c r =>
      if Ascii.eqb c newline then String.eqb r EmptyString
      else negb (Ascii.eqb c carriage_return) && full_line r
  end.

(** The line is a tool selection. *)
Definition is_selection (raw_line : string) : bool :=
  match classify raw_line with ToolSelect _ => true | _ => false end.

(** The line selects the tool [tool]. *)
Definition selects (tool : N) (raw_line : string) : bool :=
  match classify raw_line with ToolSelect id => N.eqb id tool | _ => false end.



(** A file for two tools that print one after the other, each going to
    standby when it is done. *)
Definition relay_file : string :=
"T0
G1 X1 E1
M104 S100 T0
T1
G1 X2 E2
M104 S100 T1
".

(** The test [insert_report] makes on a line to find its place. *)
Definition report_anchor (line : string) : bool :=
  contains ";LAYER:0" line || contains "thumbnail end" (lower line).

(** Not the letter [M]. *)
Definition not_M (c : ascii) : bool := negb (Ascii.eqb c "M").

(** A character of a time stamp [%Y-%m-%d %H:%M:%S]. *)
Definition stamp_char (c : ascii) : bool :=
  isdigit c || Ascii.eqb c "-" || Ascii.eqb c ":" || Ascii.eqb c " ".

(** A line that the analyzer and the standby search of every tool pass
    over, and that ends with the only line break it holds. *)
Definition passed_over (line : string) : Prop :=
  classify line = Other
  /\ full_line line = true
  /\ forall tool, contains (standby_marker tool) (strip line) = false.


(** * Properties *)

(** ** The embedding on concrete inputs *)

Example strip_examples :
  map strip ["  G1 X1 E1 	"; "T1"; "   "; "; a comment "]
  = ["G1 X1 E1"; "T1"; ""; "; a comment"].
Proof. reflexivity. Qed.

Example re_e_search_examples :
  map re_e_search
    ["G1 X10 E-.5 F100"; "G1 X1 E1.2.3"; "G1 XE5 E7."; "G1 X1 ;E5";
     "G1 X1 ; E5"; "G1 X1 e5"; "G1 E+"; "E5"]
  = [Some "-.5"; Some "1.2"; Some "7"; None; Some "5"; None; None; Some "5"].
Proof. reflexivity. Qed.

Example re_t_match_examples :
  map re_t_match
    ["T1"; "T12 ; second tool"; "T1;x"; "T 1"; "T1 T2"; "M104 S100 T1";
     "t1"; "T"]
  = [Some "1"; Some "12"; Some "1"; None; None; None; None; None].
Proof. reflexivity. Qed.

Example re_g92_e_match_examples :
  map re_g92_e_match
    ["G92 E0"; "g92 e1.5"; "G92 X1 Y2 E-3.25"; "G92E0"; "G92 X1";
     "G92 E1 E2.5"; "G92 E1E"]
  = [Some "0"; Some "1.5"; Some "-3.25"; None; None; Some "2.5"; Some "1"].
Proof. reflexivity. Qed.

Example py_float_examples :
  map py_float ["5.0"; "3"; ".5"; "-0.0"; "0.1"; "0.000001"]
  = [S754_finite false 5629499534213120 (-50);
     S754_finite false 6755399441055744 (-51);
     S754_finite false 4503599627370496 (-53);
     S754_zero true;
     S754_finite false 7205759403792794 (-56);
     S754_finite false 4722366482869645 (-72)]%Z.
Proof. vm_compute. reflexivity. Qed.

(** [5.000001 > 5.0 + 1e-6] is false and [5.0000011 > 5.0 + 1e-6] is
    true. *)
Example tolerance_examples :
  tolerance = py_float "0.000001"
  /\ float_gt (py_float "5.000001") (float_add (py_float "5.0") tolerance)
     = false
  /\ float_gt (py_float "5.0000011") (float_add (py_float "5.0") tolerance)
     = true.
Proof. vm_compute. repeat split; reflexivity. Qed.

Example readlines_examples :
  readlines two_tool_file
  = ["M104 S100 T0" +:+ nl; "T1" +:+ nl; "G1 X1 E1" +:+ nl;
     "M104 S100 T1" +:+ nl; "T0" +:+ nl; "G1 X2 E2" +:+ nl]
  /\ readlines ("a" +:+ String carriage_return nl +:+ "b")
     = ["a" +:+ nl; "b"].
Proof. vm_compute. split; reflexivity. Qed.

(** The analysis of [two_tool_file]: tool 1 extrudes on line 2, tool 0 on
    line 5. *)
Example analyze_two_tool_file :
  let p := analyze_tool_usage (loaded (readlines two_tool_file)) in
  tool_usage p = {[0%N := [5]; 1%N := [2]]}
  /\ tool_changes p = {[0%N := 0; 1%N := 0]}
  /\ total_tools p = {[0%N; 1%N]}
  /\ current_tool p = 0%N.
Proof. vm_compute. repeat split; reflexivity. Qed.

(** ** The analyzer, line by line *)

(** [analyze_line] acts on the state as the classification of the line
    says. *)
Lemma analyze_line_classify line_num raw_line loc p :
  analyze_line line_num raw_line (loc, p) =
  let loc' :=
    if is_layer_marker raw_line
    then mkLocals (previous_tool loc) false (first_tool_after_start loc)
    else loc in
  match classify raw_line with
  | ModeSet mode => (loc', set_e_mode mode p)
  | OriginReset value => (loc', set_e_pos value p)
  | ToolSelect id => select_tool id (loc', p)
  | MoveWithExtrusion value => (loc', track_extrusion line_num value p)
  | Other => (loc', p)
  end.
Proof.
  unfold analyze_line, classify, is_layer_marker. cbv zeta.
  destruct (startswith "M82" (strip raw_line)); [done|].
  destruct (startswith "M83" (strip raw_line)); [done|].
  destruct (re_g92_e_match (strip raw_line)); [done|].
  destruct (re_t_match (strip raw_line)); [done|].
  destruct (is_move (strip raw_line)); [|done].
  by destruct (re_e_search (strip raw_line)).
Qed.

Lemma track_extrusion_spec line_num v p :
  let p' := track_extrusion line_num v p in
  (if exceeds_tolerance p v then recorded_extrusion line_num p p'
   else nothing_recorded p p')
  /\ e_pos p' = match e_mode p with ABS => v | REL => e_pos p end.
Proof.
  unfold track_extrusion, exceeds_tolerance, recorded_extrusion,
    nothing_recorded, record_usage, add_tool, dd_get, usage_list.
  destruct (e_mode p); cbn;
    match goal with |- context [float_gt ?a ?b] => destruct (float_gt a b) end;
    cbn; destruct (tool_usage p !! current_tool p) eqn:E; cbn;
    rewrite ?insert_insert_eq; auto.
Qed.




(** ** Strings *)

Lemma append_nil_l (s : string) : EmptyString +:+ s = s.
Proof. reflexivity. Qed.

Lemma append_cons c (a b : string) : String c a +:+ b = String c (a +:+ b).
Proof. reflexivity. Qed.

Ltac app_simpl :=
  repeat (rewrite append_nil_l in * || rewrite append_cons in * ).


Lemma append_assoc (a b c : string) : (a +:+ b) +:+ c = a +:+ b +:+ c.
Proof. induction a; app_simpl; congruence. Qed.


Lemma all_chars_app f a b :
  all_chars f (a +:+ b) = all_chars f a && all_chars f b.
Proof.
  induction a; app_simpl; cbn; [done|]. rewrite IHa. by rewrite andb_assoc.
Qed.










(** ** The tool selection pattern *)




Lemma record_usage_frame tool line_num p :
  let p' := record_usage tool line_num p in
  lines p' = lines p /\ tool_changes p' = tool_changes p
  /\ current_tool p' = current_tool p /\ total_tools p' = total_tools p
  /\ shutdown_inserted p' = shutdown_inserted p /\ e_mode p' = e_mode p
  /\ e_pos p' = e_pos p /\ config p' = config p /\ dry_run p' = dry_run p
  /\ gcode_file p' = gcode_file p.
Proof.
  unfold record_usage, dd_get. by destruct (tool_usage p !! tool).
Qed.

Lemma track_extrusion_frame line_num v p :
  let p' := track_extrusion line_num v p in
  lines p' = lines p /\ tool_changes p' = tool_changes p
  /\ current_tool p' = current_tool p
  /\ shutdown_inserted p' = shutdown_inserted p /\ e_mode p' = e_mode p
  /\ config p' = config p /\ dry_run p' = dry_run p
  /\ gcode_file p' = gcode_file p.
Proof.
  unfold track_extrusion.
  destruct (e_mode p) eqn:Em;
    match goal with |- context [float_gt ?a ?b] => destruct (float_gt a b) end;
    cbn; unfold record_usage, dd_get; cbn;
    destruct (tool_usage p !! current_tool p); cbn; by rewrite ?Em.
Qed.



(** ** The move pattern *)

(** C6: the classifier takes a move for a move with extrusion also when the
    only E value stands in the comment of the line, behind a semicolon and a
    space (the lookbehind of the pattern looks at one character only), and
    it takes every command whose name starts with G0 or G1 (G10, G11, G17
    and so on) for a move.  An E value right behind the semicolon is
    ignored. *)
Theorem move_with_extrusion_in_comment :
  re_e_search "G1 X10 Y10 ; E5.0" = Some "5.0"
  /\ classify "G1 X10 Y10 ; E5.0" = MoveWithExtrusion (py_float "5.0")
  /\ tool_usage
       (snd (analyze_line 0 "G1 X10 Y10 ; E5.0" (init_locals, loaded [])))
     = {[0%N := [0]]}
  /\ classify "G1 X10 Y10 ;E5.0" = Other
  /\ classify "G10 E5.0" = MoveWithExtrusion (py_float "5.0")
  /\ classify "G17 E5.0" = MoveWithExtrusion (py_float "5.0")
  /\ classify "G1 X10 Y10 E5.0" = MoveWithExtrusion (py_float "5.0")
  /\ classify "G1 X10 Y10" = Other.
Proof. vm_compute. repeat split; reflexivity. Qed.

(** ** The standby search *)

Lemma range_down_S n : range_down (S n) = n :: range_down n.
Proof.
  unfold range_down. rewrite seq_S, reverse_app. reflexivity.
Qed.

Lemma scan_standby_range ls tool n :
  match scan_standby (range_down n) ls tool with
  | Some r =>
      exists k, r = k + 1 /\ k < n /\ standby_at ls tool k = true
                /\ forall j, k < j < n -> standby_at ls tool j = false
  | None => forall j, j < n -> standby_at ls tool j = false
  end.
Proof.
  induction n as [|n IH]; [cbn; intros; lia|].
  rewrite range_down_S. cbn [scan_standby].
  destruct (ls !! n) as [raw|] eqn:En.
  - destruct (contains (standby_marker tool) (strip raw)) eqn:Ec.
    + exists n. unfold standby_at. rewrite En.
      split_and!; [done|lia|done|intros; lia].
    + destruct (scan_standby (range_down n) ls tool) as [r|].
      * destruct IH as (k & -> & Hk & Hat & Hlast). exists k.
        split_and!; [done|lia|done|]. intros j Hj.
        destruct (decide (j = n)) as [->|]; [|apply Hlast; lia].
        unfold standby_at. by rewrite En.
      * intros j Hj. destruct (decide (j = n)) as [->|]; [|apply IH; lia].
        unfold standby_at. by rewrite En.
  - assert (standby_at ls tool n = false) as Hn.
    { unfold standby_at. by rewrite En. }
    destruct (scan_standby (range_down n) ls tool) as [r|].
    + destruct IH as (k & -> & Hk & Hat & Hlast). exists k.
      split_and!; [done|lia|done|]. intros j Hj.
      destruct (decide (j = n)) as [->|]; [done|apply Hlast; lia].
    + intros j Hj. destruct (decide (j = n)) as [->|]; [done|apply IH; lia].
Qed.

Lemma standby_at_lt ls tool k : standby_at ls tool k = true -> k < length ls.
Proof.
  unfold standby_at. destruct (ls !! k) eqn:E; [|done].
  intros _. by eapply lookup_lt_Some.
Qed.

(** What [find_last_standby_command] returns. *)
Lemma find_last_standby_command_spec p tool :
  match find_last_standby_command p tool with
  | Some r =>
      exists k, r = k + 1 /\ standby_at (lines p) tool k = true
                /\ forall j, standby_at (lines p) tool j = true -> j <= k
  | None => forall j, standby_at (lines p) tool j = false
  end.
Proof.
  unfold find_last_standby_command.
  pose proof (scan_standby_range (lines p) tool (length (lines p))) as H.
  destruct (scan_standby _ _ _) as [r|].
  - destruct H as (k & -> & Hk & Hat & Hlast). exists k.
    split_and!; [done|done|]. intros j Hj.
    destruct (decide (j <= k)) as [|Hn]; [done|].
    pose proof (standby_at_lt _ _ _ Hj). rewrite Hlast in Hj; [done|lia].
  - intros j. destruct (standby_at (lines p) tool j) eqn:E; [|done].
    rewrite <- E. apply H. by eapply standby_at_lt.
Qed.



(** ** Substrings and stripping *)

Lemma startswith_app p b : startswith p (p +:+ b) = true.
Proof.
  induction p as [|c p IH]; [by destruct b|].
  app_simpl. cbn. by rewrite Ascii.eqb_refl, IH.
Qed.

Lemma contains_here p s : startswith p s = true -> contains p s = true.
Proof. intros H. destruct s; cbn; by rewrite H. Qed.

Lemma contains_cons p c s : contains p s = true -> contains p (String c s) = true.
Proof. intros H. cbn. rewrite H. apply orb_true_r. Qed.

Lemma contains_app p a b : contains p (a +:+ p +:+ b) = true.
Proof.
  induction a as [|c a IH]; app_simpl.
  - apply contains_here, startswith_app.
  - by apply contains_cons.
Qed.

Lemma contains_nil_false c p : contains (String c p) EmptyString = false.
Proof. reflexivity. Qed.

Lemma contains_lstrip c p s :
  isspace c = false ->
  contains (String c p) s = true -> contains (String c p) (lstrip s) = true.
Proof.
  intros Hc. induction s as [|a r IH]; [done|].
  cbn [lstrip]. destruct (isspace a) eqn:Ea; [|done].
  intros H. apply IH. cbn in H.
  destruct (Ascii.eqb c a) eqn:E.
  - apply Ascii.eqb_eq in E as ->. congruence.
  - exact H.
Qed.

Lemma ends_nonspace_cons c p :
  ends_nonspace (String c p) = true ->
  (p = EmptyString /\ isspace c = false) \/ ends_nonspace p = true.
Proof.
  cbn. destruct p; [|by right].
  intros H. left. by destruct (isspace c).
Qed.

Lemma startswith_nonempty c p s :
  startswith (String c p) s = true -> s <> EmptyString.
Proof. by destruct s. Qed.

Lemma startswith_rstrip p s :
  ends_nonspace p = true ->
  startswith p s = true -> startswith p (rstrip s) = true.
Proof.
  revert s. induction p as [|c p IH]; [done|].
  intros s Hp Hs. destruct s as [|a r]; [done|].
  cbn in Hs. apply andb_prop in Hs as [Ha Hr].
  apply Ascii.eqb_eq in Ha as <-.
  destruct (ends_nonspace_cons _ _ Hp) as [[-> Hc]|Hp'].
  - cbn. destruct (rstrip r); [rewrite Hc|]; cbn; by rewrite Ascii.eqb_refl.
  - pose proof (IH _ Hp' Hr) as H. cbn [rstrip].
    destruct (rstrip r) as [|b t] eqn:Er.
    + by destruct p.
    + cbn [startswith]. by rewrite Ascii.eqb_refl, H.
Qed.

Lemma contains_rstrip c p s :
  ends_nonspace (String c p) = true ->
  contains (String c p) s = true -> contains (String c p) (rstrip s) = true.
Proof.
  intros Hp. induction s as [|a r IH]; [done|].
  intros H. cbn [contains] in H. apply orb_prop in H as [H|H].
  - apply contains_here. by apply startswith_rstrip.
  - specialize (IH H). cbn [rstrip].
    destruct (rstrip r) as [|b t] eqn:Er; [done|].
    by apply contains_cons.
Qed.

Lemma contains_strip c p s :
  isspace c = false -> ends_nonspace (String c p) = true ->
  contains (String c p) s = true -> contains (String c p) (strip s) = true.
Proof.
  intros Hc Hp H. unfold strip.
  apply contains_rstrip; [done|]. by apply contains_lstrip.
Qed.

(** ** Decimal numerals *)

Lemma string_of_uint_digits d :
  all_chars isdigit (NilEmpty.string_of_uint d) = true.
Proof. induction d; cbn; auto. Qed.

Lemma str_N_digits n : all_chars isdigit (str_N n) = true.
Proof. apply string_of_uint_digits. Qed.

Lemma str_N_nonempty n : str_N n <> EmptyString.
Proof.
  unfold str_N. destruct n as [|q]; [done|]. cbn.
  pose proof (Unsigned.to_uint_nonnil q) as H.
  by destruct (Pos.to_uint q).
Qed.

Lemma digits_end_nonspace s :
  s <> EmptyString -> all_chars isdigit s = true -> ends_nonspace s = true.
Proof.
  induction s as [|c r IH]; [done|]. intros _ H.
  cbn in H. apply andb_prop in H as [Hc Hr].
  destruct r as [|c' r'].
  - cbn. unfold isdigit, isspace in *. destruct (code c); [done|].
    apply andb_prop in Hc as [H1 H2]. apply N.leb_le in H1, H2.
    apply negb_true_iff, orb_false_iff. split; apply andb_false_iff.
    + right. apply N.leb_gt. lia.
    + right. apply N.leb_gt. lia.
  - change (ends_nonspace (String c' r') = true). by apply IH.
Qed.

Lemma ends_nonspace_app a b :
  ends_nonspace b = true -> ends_nonspace (a +:+ b) = true.
Proof.
  intros Hb. induction a as [|c a IH]; app_simpl; [done|].
  destruct (a +:+ b) eqn:E; [done|]. exact IH.
Qed.

Lemma standby_marker_ends tool : ends_nonspace (standby_marker tool) = true.
Proof.
  apply ends_nonspace_app, digits_end_nonspace;
    [apply str_N_nonempty|apply str_N_digits].
Qed.

(** A line that holds the standby marker keeps it when stripped. *)
Lemma standby_marker_survives_strip tool s :
  contains (standby_marker tool) s = true ->
  contains (standby_marker tool) (strip s) = true.
Proof.
  pose proof (standby_marker_ends tool) as He. revert He.
  unfold standby_marker. app_simpl. intros He. by apply contains_strip.
Qed.

Lemma startswith_split p s :
  startswith p s = true -> exists r, s = p +:+ r.
Proof.
  revert s. induction p as [|c p IH]; intros s H; [by exists s|].
  destruct s as [|a r]; [done|]. cbn in H. apply andb_prop in H as [Ha Hr].
  apply Ascii.eqb_eq in Ha as <-. destruct (IH _ Hr) as [t ->].
  by exists t.
Qed.

(** C10: the standby search accepts every line that holds the standby text
    of the tool somewhere: such a line anchors the planned insertion at or
    after it, be the text in a comment or the head of the standby command of
    another tool whose number starts with the digits of this one. *)
Theorem standby_search_matches_substring :
  (forall p tool k raw last_usage_line,
      lines p !! k = Some raw ->
      contains (standby_marker tool) raw = true ->
      exists j, k <= j
                /\ find_safe_insertion_point p last_usage_line tool
                   = Some (j + 1))
  /\ (forall tool pre post,
        contains (standby_marker tool) (pre +:+ standby_marker tool +:+ post)
        = true)
  /\ (forall n m,
        startswith (str_N n) (str_N m) = true ->
        contains (standby_marker n) (standby_marker m) = true)
  /\ find_safe_insertion_point
       (loaded ["M104 S100 T1"; "G1 X1 E1"; "; after M104 S100 T1 the tool rests"])
       1 1 = Some 3
  /\ find_safe_insertion_point
       (loaded ["M104 S100 T1"; "G1 X1 E1"; "M104 S100 T12"; "G1 X2 E2"])
       1 1 = Some 3.
Proof.
  split_and!.
  - intros p tool k raw last_usage_line Hk Hc.
    assert (standby_at (lines p) tool k = true) as Hat.
    { unfold standby_at. rewrite Hk. by apply standby_marker_survives_strip. }
    unfold find_safe_insertion_point.
    pose proof (find_last_standby_command_spec p tool) as H.
    destruct (find_last_standby_command p tool) as [r|].
    + destruct H as (j & -> & _ & Hmax). exists j.
      replace (j + 1 =? 0) with false by (symmetry; apply Nat.eqb_neq; lia).
      split; [by apply Hmax|done].
    + by rewrite H in Hat.
  - intros. apply contains_app.
  - intros n m [r Hr]%startswith_split. unfold standby_marker at 2.
    rewrite Hr, <- append_assoc. apply contains_here, startswith_app.
  - reflexivity.
  - reflexivity.
Qed.

Lemma standby_search_matches_substring_witness :
  let p := loaded ["G1 X1 E1"; "; M104 S100 T1 in a comment"] in
  lines p !! 1 = Some "; M104 S100 T1 in a comment"
  /\ contains (standby_marker 1) "; M104 S100 T1 in a comment" = true
  /\ exists j, 1 <= j /\ find_safe_insertion_point p 0 1 = Some (j + 1).
Proof.
  split; [reflexivity|]. split; [reflexivity|].
  apply (proj1 standby_search_matches_substring
           (loaded ["G1 X1 E1"; "; M104 S100 T1 in a comment"]) 1%N 1
           "; M104 S100 T1 in a comment" 0); reflexivity.
Defined.

(** ** The analyzer as a function of the processor *)

Lemma dd_get_default {V} (d : V) k m k' :
  default d (snd (dd_get d k m) !! k') = default d (m !! k').
Proof.
  unfold dd_get. destruct (m !! k) eqn:E; [done|]. cbn.
  destruct (decide (k = k')) as [<-|Hne].
  - by rewrite lookup_insert_eq, E.
  - by rewrite lookup_insert_ne.
Qed.

Lemma dd_get_fst {V} (d : V) k m : fst (dd_get d k m) = default d (m !! k).
Proof. unfold dd_get. by destruct (m !! k). Qed.

Lemma usage_list_record tool line_num p t :
  usage_list (record_usage tool line_num p) t =
  if decide (t = tool) then usage_list p t ++ [line_num] else usage_list p t.
Proof.
  unfold usage_list, record_usage, dd_get.
  destruct (tool_usage p !! tool) eqn:E; cbn; case_decide; subst;
    rewrite ?lookup_insert_eq, ?E; try done;
    rewrite !lookup_insert_ne by done; done.
Qed.

Lemma change_count_count tool p t :
  change_count (count_change tool p) t =
  if decide (t = tool) then change_count p t + 1 else change_count p t.
Proof.
  unfold change_count, count_change, dd_get.
  destruct (tool_changes p !! tool) eqn:E; cbn; case_decide; subst;
    rewrite ?lookup_insert_eq, ?E; try done;
    rewrite !lookup_insert_ne by done; done.
Qed.

Lemma count_change_frame tool p :
  let p' := count_change tool p in
  lines p' = lines p /\ tool_usage p' = tool_usage p
  /\ current_tool p' = current_tool p /\ total_tools p' = total_tools p
  /\ shutdown_inserted p' = shutdown_inserted p /\ e_mode p' = e_mode p
  /\ e_pos p' = e_pos p /\ config p' = config p.
Proof.
  unfold count_change, dd_get. by destruct (tool_changes p !! tool).
Qed.

Lemma analysis_state_count_change tool p :
  analysis_state (count_change tool p) = count_change tool (analysis_state p).
Proof.
  unfold count_change, dd_get. cbn. by destruct (tool_changes p !! tool).
Qed.

Lemma analysis_state_record_usage tool n p :
  analysis_state (record_usage tool n p) = record_usage tool n (analysis_state p).
Proof.
  unfold record_usage, dd_get. cbn. by destruct (tool_usage p !! tool).
Qed.

Lemma analysis_state_track n v p :
  analysis_state (track_extrusion n v p) = track_extrusion n v (analysis_state p).
Proof.
  unfold track_extrusion, add_tool, record_usage, dd_get. cbn.
  destruct (e_mode p);
    match goal with |- context [float_gt ?a ?b] => destruct (float_gt a b) end;
    cbn; try done; by destruct (tool_usage p !! current_tool p).
Qed.

Lemma analysis_state_select id loc p :
  select_tool id (loc, analysis_state p) =
  (fst (select_tool id (loc, p)), analysis_state (snd (select_tool id (loc, p)))).
Proof.
  unfold select_tool. destruct (in_start_gcode loc); cbn; [done|].
  destruct (first_tool_after_start loc); cbn; [done|].
  destruct (previous_tool loc) as [prev|]; cbn; [|done].
  destruct (N.eqb prev id); cbn; [done|].
  unfold count_change, dd_get. cbn. by destruct (tool_changes p !! id).
Qed.

Lemma analysis_state_line n raw loc p :
  analyze_line n raw (loc, analysis_state p) =
  (fst (analyze_line n raw (loc, p)),
   analysis_state (snd (analyze_line n raw (loc, p)))).
Proof.
  rewrite !analyze_line_classify. cbv zeta.
  destruct (classify raw); cbn [fst snd]; try done.
  - apply analysis_state_select.
  - by rewrite analysis_state_track.
Qed.

Lemma analysis_state_from ls n loc p :
  analyze_from n ls (loc, analysis_state p) =
  (fst (analyze_from n ls (loc, p)),
   analysis_state (snd (analyze_from n ls (loc, p)))).
Proof.
  revert n loc p. induction ls as [|raw ls IH]; intros n loc p; [done|].
  cbn [analyze_from]. rewrite analysis_state_line.
  destruct (analyze_line n raw (loc, p)) as [loc' p']. apply IH.
Qed.

Lemma analysis_state_summary_fold ts p :
  foldl summary_line (analysis_state p) ts =
  analysis_state (foldl summary_line p ts).
Proof.
  revert p. induction ts as [|t ts IH]; intros p; [done|]. cbn [foldl].
  rewrite <- IH. done.
Qed.

Lemma analysis_state_analyze p :
  analyze_tool_usage (analysis_state p) = analysis_state (analyze_tool_usage p).
Proof.
  unfold analyze_tool_usage, print_summary.
  change (lines (analysis_state p)) with (lines p).
  rewrite analysis_state_from. cbn [snd].
  rewrite <- analysis_state_summary_fold. done.
Qed.

(** ** The effect of the analyzer on the usage lists *)

Lemma select_tool_effect id loc p :
  let p' := snd (select_tool id (loc, p)) in
  lines p' = lines p /\ shutdown_inserted p' = shutdown_inserted p
  /\ config p' = config p
  /\ e_mode p' = e_mode p /\ e_pos p' = e_pos p
  /\ tool_usage p' = tool_usage p
  /\ total_tools p' = {[id]} ∪ total_tools p
  /\ current_tool p' = id
  /\ forall t, change_count p t <= change_count p' t.
Proof.
  unfold select_tool.
  destruct (negb (in_start_gcode loc)); cbn; [|by split_and!].
  destruct (first_tool_after_start loc); cbn; [by split_and!|].
  destruct (previous_tool loc) as [prev|]; cbn; [|by split_and!].
  destruct (negb (N.eqb prev id)); cbn; [|by split_and!].
  destruct (count_change_frame id p) as (-> & -> & _ & -> & -> & -> & -> & ->).
  split_and!; try done.
  intros t. unfold add_tool, set_current_tool, set_total_tools, change_count.
  cbn. fold (change_count (count_change id p) t). fold (change_count p t).
  rewrite change_count_count. case_decide; lia.
Qed.

Lemma track_extrusion_usage n v p t :
  usage_list (track_extrusion n v p) t =
  if exceeds_tolerance p v
  then (if decide (t = current_tool p) then usage_list p t ++ [n]
        else usage_list p t)
  else usage_list p t.
Proof.
  unfold track_extrusion, exceeds_tolerance.
  destruct (e_mode p);
    match goal with |- context [float_gt ?a ?b] => destruct (float_gt a b) end;
    try done.
  - change (usage_list (record_usage (current_tool p) n (set_e_pos v p)) t = 
            if decide (t = current_tool p) then usage_list p t ++ [n]
            else usage_list p t).
    by rewrite usage_list_record.
  - change (usage_list (record_usage (current_tool p) n p) t = 
            if decide (t = current_tool p) then usage_list p t ++ [n]
            else usage_list p t).
    by rewrite usage_list_record.
Qed.

Lemma track_extrusion_tools n v p :
  total_tools (track_extrusion n v p) =
  if exceeds_tolerance p v then {[current_tool p]} ∪ total_tools p
  else total_tools p.
Proof.
  unfold track_extrusion, exceeds_tolerance.
  destruct (e_mode p);
    match goal with |- context [float_gt ?a ?b] => destruct (float_gt a b) end;
    try done; cbn.
  - by destruct (record_usage_frame (current_tool p) n (set_e_pos v p))
      as (_ & _ & _ & -> & _).
  - by destruct (record_usage_frame (current_tool p) n p)
      as (_ & _ & _ & -> & _).
Qed.

(** One line either leaves every usage list alone or appends its index to
    the list of the current tool, which is then known. *)
Lemma analyze_line_effect n raw loc p :
  let p' := snd (analyze_line n raw (loc, p)) in
  lines p' = lines p /\ shutdown_inserted p' = shutdown_inserted p
  /\ config p' = config p
  /\ total_tools p ⊆ total_tools p'
  /\ (forall t, change_count p t <= change_count p' t)
  /\ ((forall t, usage_list p' t = usage_list p t)
      \/ ((forall t, usage_list p' t =
                     if decide (t = current_tool p)
                     then usage_list p t ++ [n] else usage_list p t)
          /\ current_tool p ∈ total_tools p')).
Proof.
  rewrite analyze_line_classify. cbv zeta.
  destruct (classify raw) as [m|v|id|v|]; cbn [snd]; try (by split_and!; auto).
  - destruct (select_tool_effect id
      (if is_layer_marker raw
       then mkLocals (previous_tool loc) false (first_tool_after_start loc)
       else loc) p) as (-> & -> & -> & _ & _ & Hu & -> & _ & Hc).
    split_and!; try done; [set_solver|]. left. intros t.
    unfold usage_list. by rewrite Hu.
  - destruct (track_extrusion_frame n v p) as (-> & Hc & _ & -> & _ & -> & _).
    pose proof (track_extrusion_tools n v p) as Ht.
    pose proof (track_extrusion_usage n v p) as Hu.
    split_and!; try done.
    + rewrite Ht. destruct (exceeds_tolerance p v); set_solver.
    + intros t. unfold change_count. by rewrite Hc.
    + destruct (exceeds_tolerance p v); [right|left; done].
      split; [done|]. rewrite Ht. set_solver.
Qed.

Lemma usage_inv_line n raw loc p :
  usage_inv n p -> usage_inv (S n) (snd (analyze_line n raw (loc, p))).
Proof.
  intros (Hknown & Hlt & Hdisj).
  destruct (analyze_line_effect n raw loc p) as (_ & _ & _ & Hsub & _ & Hu).
  destruct Hu as [Hu | [Hu Hcur]]; unfold usage_inv.
  - split_and!.
    + intros t Ht. rewrite Hu in Ht. apply Hsub. auto.
    + intros t k Hk. rewrite Hu in Hk. apply Hlt in Hk. lia.
    + intros t1 t2 k H1 H2. rewrite Hu in H1, H2. eauto.
  - split_and!.
    + intros t Ht. rewrite Hu in Ht. case_decide; subst; [done|].
      apply Hsub. auto.
    + intros t k Hk. rewrite Hu in Hk. case_decide.
      * apply elem_of_app in Hk as [Hk|Hk%list_elem_of_singleton].
        -- apply Hlt in Hk. lia.
        -- lia.
      * apply Hlt in Hk. lia.
    + intros t1 t2 k H1 H2. rewrite Hu in H1, H2.
      assert (forall t, k ∈ usage_list p t -> k <> n) as Hne.
      { intros t Hk%Hlt. lia. }
      destruct (decide (t1 = current_tool p)) as [E1|E1];
        destruct (decide (t2 = current_tool p)) as [E2|E2]; [congruence| | |eauto].
      * apply elem_of_app in H1 as [H1|H1%list_elem_of_singleton]; [eauto|].
        by destruct (Hne _ H2).
      * apply elem_of_app in H2 as [H2|H2%list_elem_of_singleton]; [eauto|].
        by destruct (Hne _ H1).
Qed.

Lemma usage_inv_from ls n loc p :
  usage_inv n p ->
  usage_inv (n + length ls) (snd (analyze_from n ls (loc, p))).
Proof.
  revert n loc p. induction ls as [|raw ls IH]; intros n loc p H.
  - cbn. by rewrite Nat.add_0_r.
  - cbn [analyze_from length].
    destruct (analyze_line n raw (loc, p)) as [loc' p'] eqn:E.
    replace (n + S (length ls)) with (S n + length ls) by lia.
    apply IH. pose proof (usage_inv_line n raw loc p H) as H'.
    by rewrite E in H'.
Qed.

Lemma analyze_from_frame ls n loc p :
  let p' := snd (analyze_from n ls (loc, p)) in
  lines p' = lines p /\ shutdown_inserted p' = shutdown_inserted p
  /\ config p' = config p
  /\ total_tools p ⊆ total_tools p'
  /\ (forall t, change_count p t <= change_count p' t)
  /\ (forall t, usage_list p t `prefix_of` usage_list p' t).
Proof.
  revert n loc p. induction ls as [|raw ls IH]; intros n loc p.
  - cbn. by split_and!.
  - cbn [analyze_from].
    destruct (analyze_line n raw (loc, p)) as [loc' p'] eqn:E.
    destruct (analyze_line_effect n raw loc p) as (Hl & Hs & Hc & Hsub & Hch & Hu).
    rewrite E in Hl, Hs, Hc, Hsub, Hch, Hu. cbn [snd] in *.
    destruct (IH (S n) loc' p') as (-> & -> & -> & Hsub' & Hch' & Hpre).
    split_and!; try done.
    + set_solver.
    + intros t. specialize (Hch t). specialize (Hch' t). lia.
    + intros t. etrans; [|apply Hpre].
      destruct Hu as [Hu | [Hu _]]; rewrite Hu; [done|].
      case_decide; [by apply prefix_app_r|done].
Qed.

Lemma print_summary_fold_frame ts p :
  let p' := foldl summary_line p ts in
  lines p' = lines p /\ shutdown_inserted p' = shutdown_inserted p
  /\ config p' = config p /\ total_tools p' = total_tools p
  /\ current_tool p' = current_tool p
  /\ e_mode p' = e_mode p /\ e_pos p' = e_pos p
  /\ dry_run p' = dry_run p /\ gcode_file p' = gcode_file p
  /\ (forall t, change_count p' t = change_count p t)
  /\ (forall t, usage_list p' t = usage_list p t).
Proof.
  revert p. induction ts as [|tool ts IH]; intros p; [by split_and!|].
  cbn [foldl]. cbv zeta.
  destruct (IH (summary_line p tool))
    as (-> & -> & -> & -> & -> & -> & -> & -> & -> & Hc & Hu).
  split_and!; try done.
  - intros t. rewrite Hc. unfold change_count. cbn. apply dd_get_default.
  - intros t. rewrite Hu. unfold usage_list. cbn. apply dd_get_default.
Qed.

Lemma print_summary_frame p :
  let p' := print_summary p in
  lines p' = lines p /\ shutdown_inserted p' = shutdown_inserted p
  /\ config p' = config p /\ total_tools p' = total_tools p
  /\ current_tool p' = current_tool p
  /\ e_mode p' = e_mode p /\ e_pos p' = e_pos p
  /\ dry_run p' = dry_run p /\ gcode_file p' = gcode_file p
  /\ (forall t, change_count p' t = change_count p t)
  /\ (forall t, usage_list p' t = usage_list p t).
Proof. apply print_summary_fold_frame. Qed.

Lemma usage_inv_summary n p : usage_inv n p -> usage_inv n (print_summary p).
Proof.
  destruct (print_summary_frame p)
    as (_ & _ & _ & Ht & _ & _ & _ & _ & _ & _ & Hu).
  unfold usage_inv. rewrite Ht. setoid_rewrite Hu. done.
Qed.

Lemma usage_inv_fresh content f d : usage_inv 0 (set_lines content (init f d)).
Proof.
  unfold usage_inv, usage_list. cbn.
  split_and!; intros; rewrite ?lookup_empty in *; cbn in *; set_solver.
Qed.

(** The state after the analysis of a freshly loaded file. *)
Lemma usage_inv_analyzed content f d :
  usage_inv (length content)
    (analyze_tool_usage (set_lines content (init f d))).
Proof.
  unfold analyze_tool_usage. apply usage_inv_summary.
  apply (usage_inv_from content 0), usage_inv_fresh.
Qed.

Lemma analyze_tool_usage_frame p :
  let p' := analyze_tool_usage p in
  lines p' = lines p /\ shutdown_inserted p' = shutdown_inserted p
  /\ config p' = config p
  /\ total_tools p ⊆ total_tools p'
  /\ (forall t, change_count p t <= change_count p' t)
  /\ (forall t, usage_list p t `prefix_of` usage_list p' t).
Proof.
  unfold analyze_tool_usage.
  destruct (print_summary_frame (snd (analyze_from 0 (lines p) (init_locals, p))))
    as (-> & -> & -> & -> & _ & _ & _ & _ & _ & Hc & Hu).
  destruct (analyze_from_frame (lines p) 0 init_locals p)
    as (-> & -> & -> & Hsub & Hch & Hpre).
  split_and!; try done.
  - intros t. rewrite Hc. apply Hch.
  - intros t. rewrite Hu. apply Hpre.
Qed.

(** ** Running the analyzer twice *)

(** C9, as stated: a second run of the analyzer on the same processor does
    not reproduce the maps of the first run.  The processor keeps its
    dictionaries, current tool, mode and position between the calls, so the
    second run appends every index once more and counts every change once
    more. *)
Lemma analyzer_second_run_differs :
  let content :=
    [";LAYER:0"; "M83"; "T0"; "G1 X1 E1.0"; "T1"; "G1 X2 E1.0"] in
  let p1 := analyze_tool_usage (loaded content) in
  let p2 := analyze_tool_usage p1 in
  lines p2 = content
  /\ tool_usage p1 = {[0%N := [3]; 1%N := [5]]}
  /\ tool_usage p2 = {[0%N := [3; 3]; 1%N := [5; 5]]}
  /\ tool_changes p1 = {[0%N := 0; 1%N := 1]}
  /\ tool_changes p2 = {[0%N := 0; 1%N := 2]}
  /\ tool_usage p2 <> tool_usage p1
  /\ tool_changes p2 <> tool_changes p1.
Proof.
  cbv zeta.
  assert (tool_usage (analyze_tool_usage (loaded
            [";LAYER:0"; "M83"; "T0"; "G1 X1 E1.0"; "T1"; "G1 X2 E1.0"]))
          = {[0%N := [3]; 1%N := [5]]}) as H1 by (vm_compute; reflexivity).
  assert (tool_usage (analyze_tool_usage (analyze_tool_usage (loaded
            [";LAYER:0"; "M83"; "T0"; "G1 X1 E1.0"; "T1"; "G1 X2 E1.0"])))
          = {[0%N := [3; 3]; 1%N := [5; 5]]}) as H2 by (vm_compute; reflexivity).
  assert (tool_changes (analyze_tool_usage (loaded
            [";LAYER:0"; "M83"; "T0"; "G1 X1 E1.0"; "T1"; "G1 X2 E1.0"]))
          = {[0%N := 0; 1%N := 1]}) as H3 by (vm_compute; reflexivity).
  assert (tool_changes (analyze_tool_usage (analyze_tool_usage (loaded
            [";LAYER:0"; "M83"; "T0"; "G1 X1 E1.0"; "T1"; "G1 X2 E1.0"])))
          = {[0%N := 0; 1%N := 2]}) as H4 by (vm_compute; reflexivity).
  rewrite H1, H2, H3, H4. split_and!; try reflexivity.
  - intros E. apply (f_equal (fun m => m !! 0%N)) in E. vm_compute in E.
    discriminate.
  - intros E. apply (f_equal (fun m => m !! 1%N)) in E. vm_compute in E.
    discriminate.
Qed.

(** C9, amended: two runs of the analyzer that each start from a freshly
    constructed processor, whatever its file name and dry-run flag, yield
    the same usage map, change counts and known tools for the same lines; a
    further run on the same processor continues from what the first left,
    so every usage list of the first run is a prefix of the list after the
    second and no change count decreases. *)
Theorem analyzer_deterministic_from_fresh (content : list string) :
  (forall f1 d1 f2 d2,
      let p1 := analyze_tool_usage (set_lines content (init f1 d1)) in
      let p2 := analyze_tool_usage (set_lines content (init f2 d2)) in
      tool_usage p1 = tool_usage p2
      /\ tool_changes p1 = tool_changes p2
      /\ total_tools p1 = total_tools p2)
  /\ (forall f d tool,
        let p1 := analyze_tool_usage (set_lines content (init f d)) in
        let p2 := analyze_tool_usage p1 in
        usage_list p1 tool `prefix_of` usage_list p2 tool
        /\ change_count p1 tool <= change_count p2 tool
        /\ total_tools p1 ⊆ total_tools p2).
Proof.
  split.
  - intros f1 d1 f2 d2 p1 p2.
    assert (analysis_state p1 = analysis_state p2) as E.
    { subst p1 p2. by rewrite <- !analysis_state_analyze. }
    split_and!.
    + exact (f_equal tool_usage E).
    + exact (f_equal tool_changes E).
    + exact (f_equal total_tools E).
  - intros f d tool p1 p2. subst p2.
    destruct (analyze_tool_usage_frame p1) as (_ & _ & _ & Hsub & Hch & Hpre).
    split_and!; auto.
Qed.

(** ** The sequence mutator *)

Lemma py_insert_sublist {A} i (x : A) l : l `sublist_of` py_insert i x l.
Proof.
  unfold py_insert. rewrite <- (take_drop i l) at 1.
  apply sublist_app; [done|]. by apply sublist_cons.
Qed.

Lemma py_insert_length {A} i (x : A) l : length (py_insert i x l) = S (length l).
Proof.
  unfold py_insert. rewrite length_app. cbn.
  rewrite length_take, length_drop. lia.
Qed.

(** A block inserted at an index within the list stands there in order. *)
Lemma insert_block_spec i cmds out :
  i <= length out ->
  insert_block i cmds out = take i out ++ cmds ++ drop i out.
Proof.
  intros Hi. unfold insert_block. induction cmds as [|c cmds IH].
  - cbn. by rewrite take_drop.
  - rewrite reverse_cons, foldl_app. cbn [foldl]. rewrite IH.
    unfold py_insert.
    assert (length (take i out) = i) as Hl by (rewrite length_take; lia).
    rewrite take_app_length', drop_app_length' by done. done.
Qed.

Lemma insert_block_sublist i cmds out : out `sublist_of` insert_block i cmds out.
Proof.
  unfold insert_block. generalize (reverse cmds) as cs. intros cs.
  revert out. induction cs as [|c cs IH]; intros out; [done|].
  cbn [foldl]. etrans; [apply (py_insert_sublist i c)|apply IH].
Qed.

Lemma py_insert_perm {A} i (x : A) l : py_insert i x l ≡ₚ x :: l.
Proof.
  unfold py_insert. rewrite <- Permutation_middle. by rewrite take_drop.
Qed.

Lemma insert_block_perm i cmds out : insert_block i cmds out ≡ₚ out ++ cmds.
Proof.
  unfold insert_block. rewrite <- (reverse_Permutation cmds) at 2.
  generalize (reverse cmds) as cs. intros cs.
  revert out. induction cs as [|c cs IH]; intros out.
  - cbn. by rewrite app_nil_r.
  - cbn [foldl]. rewrite IH, py_insert_perm. apply Permutation_middle.
Qed.

Lemma find_safe_lines p q l l' tool :
  lines p = lines q ->
  find_safe_insertion_point p l tool = find_safe_insertion_point q l' tool.
Proof.
  intros H. unfold find_safe_insertion_point, find_last_standby_command.
  by rewrite H.
Qed.

Lemma shuts_down_lines p q tool :
  lines p = lines q -> shuts_down p tool = shuts_down q tool.
Proof.
  intros H. unfold shuts_down. by rewrite (find_safe_lines p q 0 0 tool H).
Qed.

Lemma shutdown_tool_step out p tool last :
  shutdown_tool (out, p) (tool, last) =
  if shuts_down p tool
  then (insert_block (default 0 (find_safe_insertion_point p 0 tool))
          (generate_shutdown_commands (config p) tool) out,
        set_shutdown_inserted ({[tool]} ∪ shutdown_inserted p) p)
  else (out, p).
Proof.
  unfold shutdown_tool, shuts_down.
  rewrite (find_safe_lines p p last 0 tool eq_refl).
  by destruct (find_safe_insertion_point p 0 tool).
Qed.

Lemma shut_tools_lines p q entries :
  lines p = lines q -> shut_tools p entries = shut_tools q entries.
Proof.
  intros H. unfold shut_tools. apply list_filter_iff.
  intros t. by rewrite (shuts_down_lines p q t H).
Qed.

Lemma shut_tools_cons p tool last entries :
  shut_tools p ((tool, last) :: entries) =
  if shuts_down p tool then tool :: shut_tools p entries
  else shut_tools p entries.
Proof.
  unfold shut_tools. rewrite fmap_cons, filter_cons. cbn [fst].
  destruct (shuts_down p tool); [by rewrite decide_True|by rewrite decide_False].
Qed.

(** What the loop over the sorted entries does to the lines and to the
    processor. *)
Lemma shutdown_fold_spec entries out p :
  let r := foldl shutdown_tool (out, p) entries in
  lines (snd r) = lines p /\ config (snd r) = config p
  /\ tool_usage (snd r) = tool_usage p
  /\ tool_changes (snd r) = tool_changes p
  /\ total_tools (snd r) = total_tools p
  /\ dry_run (snd r) = dry_run p
  /\ shutdown_inserted (snd r)
     = list_to_set (shut_tools p entries) ∪ shutdown_inserted p
  /\ out `sublist_of` fst r
  /\ fst r ≡ₚ out ++ (shut_tools p entries
                        ≫= generate_shutdown_commands (config p)).
Proof.
  revert out p. induction entries as [|[tool last] entries IH]; intros out p.
  - cbn. split_and!; try done; [set_solver|by rewrite app_nil_r].
  - cbn [foldl]. cbv zeta. rewrite shutdown_tool_step, shut_tools_cons.
    destruct (shuts_down p tool) eqn:E; [|apply IH].
    match goal with |- context [foldl shutdown_tool (?o, ?q) entries] =>
      destruct (IH o q) as (-> & -> & -> & -> & -> & -> & -> & Hsub & Hperm);
      rewrite (shut_tools_lines q p entries eq_refl) in *
    end.
    cbn [config shutdown_inserted set_shutdown_inserted] in *.
    split_and!; try done.
    + set_solver.
    + etrans; [apply insert_block_sublist|apply Hsub].
    + rewrite Hperm, insert_block_perm. cbn [mbind list_bind].
      by rewrite app_assoc.
Qed.

(** ** Reads of the dictionaries *)

Lemma same_reads_refl p : same_reads p p.
Proof. by unfold same_reads. Qed.

Lemma same_reads_trans p q r : same_reads p q -> same_reads q r -> same_reads p r.
Proof.
  unfold same_reads.
  intros (H1 & H2 & H3 & H4 & H5 & H6 & H7) (G1 & G2 & G3 & G4 & G5 & G6 & G7).
  split_and!; congruence.
Qed.

Lemma read_usage_spec tool p :
  fst (read_usage tool p) = usage_list p tool
  /\ same_reads p (snd (read_usage tool p)).
Proof.
  unfold read_usage, usage_list, same_reads, change_count.
  pose proof (dd_get_fst (@nil nat) tool (tool_usage p)) as Hf.
  pose proof (dd_get_default (@nil nat) tool (tool_usage p)) as Hd.
  destruct (dd_get [] tool (tool_usage p)) as [u d]. cbn in *.
  split_and!; done.
Qed.

Lemma read_changes_spec tool p :
  fst (read_changes tool p) = change_count p tool
  /\ same_reads p (snd (read_changes tool p)).
Proof.
  unfold read_changes, usage_list, same_reads, change_count.
  pose proof (dd_get_fst 0 tool (tool_changes p)) as Hf.
  pose proof (dd_get_default 0 tool (tool_changes p)) as Hd.
  destruct (dd_get 0 tool (tool_changes p)) as [u d]. cbn in *.
  split_and!; done.
Qed.

Lemma last_use_entry_same p q t :
  same_reads p q -> last_use_entry q t = last_use_entry p t.
Proof.
  intros (_ & _ & _ & _ & _ & Hu & _). unfold last_use_entry. by rewrite Hu.
Qed.

Lemma omap_last_use_same p q (ts : list N) :
  same_reads p q -> omap (last_use_entry q) ts = omap (last_use_entry p) ts.
Proof.
  intros H. induction ts as [|t ts IH]; [done|]. cbn.
  by rewrite IH, (last_use_entry_same p q t H).
Qed.

Lemma note_last_use_step items p tool :
  fst (note_last_use (items, p) tool)
  = items ++ option_list (last_use_entry p tool)
  /\ same_reads p (snd (note_last_use (items, p) tool)).
Proof.
  unfold note_last_use, last_use_entry.
  destruct (read_usage_spec tool p) as [Hf Hs].
  destruct (read_usage tool p) as [u q]. cbn [fst snd] in *. subst u.
  destruct (usage_list p tool); cbn; [by rewrite app_nil_r|done].
Qed.

Lemma note_last_use_fold (ts : list N) items p :
  fst (foldl note_last_use (items, p) ts)
  = items ++ omap (last_use_entry p) ts
  /\ same_reads p (snd (foldl note_last_use (items, p) ts)).
Proof.
  revert items p. induction ts as [|t ts IH]; intros items p.
  - cbn. rewrite app_nil_r. split; [done|apply same_reads_refl].
  - cbn [foldl].
    destruct (note_last_use_step items p t) as [Hf Hs].
    destruct (note_last_use (items, p) t) as [items' q]. cbn [fst snd] in *.
    destruct (IH items' q) as [Hf' Hs']. split.
    + rewrite Hf', Hf, <- app_assoc. f_equal.
      rewrite (omap_last_use_same p q ts Hs). cbn.
      by destruct (last_use_entry p t).
    + by eapply same_reads_trans.
Qed.

(** ** The sort by last use *)

Lemma insert_desc_perm x l : insert_desc x l ≡ₚ x :: l.
Proof.
  induction l as [|y l IH]; [done|]. cbn.
  destruct (Nat.leb (snd y) (snd x)); [done|].
  by rewrite IH, Permutation_swap.
Qed.

Lemma sorted_by_last_use_perm l : sorted_by_last_use l ≡ₚ l.
Proof.
  induction l as [|x l IH]; [done|]. cbn.
  by rewrite insert_desc_perm, IH.
Qed.

Lemma insert_desc_sorted x l :
  Sorted last_use_ge l -> Sorted last_use_ge (insert_desc x l).
Proof.
  induction 1 as [|y l Hs IH Hhd]; cbn; [by repeat constructor|].
  destruct (Nat.leb (snd y) (snd x)) eqn:E.
  - apply Nat.leb_le in E. repeat constructor; done.
  - apply Nat.leb_gt in E. constructor; [done|].
    destruct l as [|z l]; cbn.
    + constructor. unfold last_use_ge. lia.
    + destruct (Nat.leb (snd z) (snd x)).
      * constructor. unfold last_use_ge. lia.
      * constructor. by inversion Hhd.
Qed.

Lemma sorted_by_last_use_sorted l : Sorted last_use_ge (sorted_by_last_use l).
Proof.
  induction l as [|x l IH]; cbn; [constructor|]. by apply insert_desc_sorted.
Qed.

Section MutatorFacts.

Variable set_iter : gset N -> list N.

(** What [insert_shutdown_commands] returns: the original lines with the
    blocks of the tools that have a standby marker added, and the processor
    with these tools entered in the shutdown set. *)
Lemma insert_shutdown_commands_spec p :
  let r := insert_shutdown_commands set_iter p in
  let tools := shut_tools p (planned_entries set_iter p) in
  lines (snd r) = lines p /\ config (snd r) = config p
  /\ total_tools (snd r) = total_tools p
  /\ dry_run (snd r) = dry_run p
  /\ (forall t, usage_list (snd r) t = usage_list p t)
  /\ (forall t, change_count (snd r) t = change_count p t)
  /\ shutdown_inserted (snd r) = list_to_set tools ∪ shutdown_inserted p
  /\ lines p `sublist_of` fst r
  /\ fst r ≡ₚ lines p ++ (tools ≫= generate_shutdown_commands (config p)).
Proof.
  unfold insert_shutdown_commands, last_usage_items, planned_entries.
  destruct (note_last_use_fold (set_iter (total_tools p)) [] p) as [Hf Hs].
  destruct (foldl note_last_use ([], p) (set_iter (total_tools p)))
    as [items q]. cbn [fst snd] in Hf, Hs. rewrite app_nil_l in Hf. subst items.
  destruct Hs as (Hl & Hc & Ht & Hsh & Hd & Hu & Hch).
  cbv zeta.
  destruct (shutdown_fold_spec
              (sorted_by_last_use
                 (omap (last_use_entry p) (set_iter (total_tools p))))
              (lines q) q)
    as (-> & -> & Hu' & Hch' & -> & -> & -> & Hsub & Hperm).
  rewrite (shut_tools_lines q p _ Hl) in *. rewrite Hl, Hc, Hsh in *.
  split_and!; try done.
  - intros t. unfold usage_list. rewrite Hu'. apply Hu.
  - intros t. unfold change_count. rewrite Hch'. apply Hch.
Qed.

End MutatorFacts.

(** ** The order of the planner *)

Global Instance spec_order_total : Total spec_order.
Proof. intros [t1 u1] [t2 u2]. unfold spec_order. cbn. lia. Qed.

Global Instance spec_order_trans : Transitive spec_order.
Proof. intros [t1 u1] [t2 u2] [t3 u3]. unfold spec_order. cbn. lia. Qed.

Global Instance spec_order_antisymm : AntiSymm (=) spec_order.
Proof.
  intros [t1 u1] [t2 u2]. unfold spec_order. cbn. intros H1 H2.
  f_equal; lia.
Qed.

(** A list in descending order of last use whose last uses are pairwise
    different is in the order of the specification. *)
Lemma sorted_distinct_spec_order (l : list (N * nat)) :
  Sorted last_use_ge l -> NoDup (l.*2) -> Sorted spec_order l.
Proof.
  induction 1 as [|a l Hs IH Hhd]; [constructor|].
  rewrite fmap_cons. intros [Hnotin Hnd]%NoDup_cons.
  constructor; [by apply IH|].
  destruct Hhd as [|b l Hab]; constructor.
  unfold spec_order, last_use_ge in *. left.
  assert (snd a <> snd b); [|lia].
  intros E. apply Hnotin. rewrite E, fmap_cons. apply list_elem_of_here.
Qed.

Lemma elem_of_last_use_entries p (ts : list N) t u :
  (t, u) ∈ omap (last_use_entry p) ts <->
  t ∈ ts /\ usage_list p t <> [] /\ u = max_list (usage_list p t).
Proof.
  rewrite list_elem_of_omap. unfold last_use_entry. split.
  - intros (x & Hx & E). destruct (usage_list p x) eqn:Eu; [done|].
    injection E as <- <-. by rewrite Eu.
  - intros (Ht & Hne & ->). exists t. split; [done|].
    by destruct (usage_list p t).
Qed.

Lemma omap_cons_eq {A B} (f : A -> option B) x (l : list A) :
  omap f (x :: l) =
  match f x with Some y => y :: omap f l | None => omap f l end.
Proof. reflexivity. Qed.

Lemma last_use_entry_Some p t e :
  last_use_entry p t = Some e ->
  e = (t, max_list (usage_list p t)) /\ usage_list p t <> [].
Proof.
  unfold last_use_entry. destruct (usage_list p t); [done|].
  by intros [= <-].
Qed.

Lemma last_use_entries_fst p (ts : list N) :
  NoDup ts -> NoDup ((omap (last_use_entry p) ts).*1).
Proof.
  induction 1 as [|t ts Hnotin Hnd IH]; [constructor|]. rewrite omap_cons_eq.
  destruct (last_use_entry p t) as [e|] eqn:E; [|done].
  apply last_use_entry_Some in E as [-> Hne].
  rewrite fmap_cons. cbn [fst]. constructor; [|done].
  intros ([t' u] & Heq & [Hin _]%elem_of_last_use_entries)%list_elem_of_fmap.
  cbn in Heq. by subst.
Qed.

Lemma last_use_entries_snd n p (ts : list N) :
  usage_inv n p -> NoDup ts -> NoDup ((omap (last_use_entry p) ts).*2).
Proof.
  intros (_ & _ & Hdisj).
  induction 1 as [|t ts Hnotin Hnd IH]; [constructor|]. rewrite omap_cons_eq.
  destruct (last_use_entry p t) as [e|] eqn:E; [|done].
  apply last_use_entry_Some in E as [-> Hne].
  rewrite fmap_cons. cbn [snd]. constructor; [|done].
  intros ([t' u] & Heq & (Hin & Hne' & ->)%elem_of_last_use_entries)%list_elem_of_fmap.
  cbn in Heq. apply Hnotin.
  assert (t = t') as ->; [|done].
  apply (Hdisj t t' (max_list (usage_list p t))).
  - by apply max_list_elem_of.
  - rewrite Heq. by apply max_list_elem_of.
Qed.

Lemma elem_of_last_uses p t u :
  (t, u) ∈ last_uses (tool_usage p) <->
  usage_list p t <> [] /\ u = max_list (usage_list p t).
Proof.
  unfold last_uses, usage_list. rewrite list_elem_of_omap. split.
  - intros ([t' l] & Hin%elem_of_map_to_list & E). cbn in E.
    destruct l as [|k l]; [done|]. injection E as <- <-.
    by rewrite Hin.
  - intros [Hne ->]. destruct (tool_usage p !! t) as [l|] eqn:E; [|done].
    exists (t, l). split; [by apply elem_of_map_to_list|].
    cbn in *. by destruct l.
Qed.

Lemma last_uses_fst (usage : gmap N (list nat)) : NoDup ((last_uses usage).*1).
Proof.
  unfold last_uses.
  pose proof (NoDup_fst_map_to_list usage) as H.
  induction (map_to_list usage) as [|[t l] es IH]; [constructor|].
  rewrite fmap_cons in H. apply NoDup_cons in H as [Hnotin Hnd].
  rewrite omap_cons_eq. cbn [snd fst]. destruct l as [|k l]; [by apply IH|].
  rewrite fmap_cons. cbn [fst]. constructor; [|by apply IH].
  intros ([t' u] & Heq & ([t'' l'] & Hin & E)%list_elem_of_omap)%list_elem_of_fmap.
  cbn in *. destruct l' as [|k' l']; [done|]. injection E as <- <-. subst.
  apply Hnotin. apply list_elem_of_fmap. by exists (t'', k' :: l').
Qed.

Section PlannerOrder.

Variable set_iter : gset N -> list N.

(** Whatever the order in which a set is walked, it yields every element
    once. *)
Hypothesis set_iter_perm : forall s, set_iter s ≡ₚ elements s.

Lemma set_iter_NoDup s : NoDup (set_iter s).
Proof. rewrite set_iter_perm. apply NoDup_elements. Qed.

Lemma elem_of_set_iter s t : t ∈ set_iter s <-> t ∈ s.
Proof. rewrite set_iter_perm. apply elem_of_elements. Qed.

Lemma tools_by_last_use_planned p :
  tools_by_last_use set_iter p = planned_entries set_iter p.
Proof.
  unfold tools_by_last_use, planned_entries, last_usage_items.
  destruct (note_last_use_fold (set_iter (total_tools p)) [] p) as [-> _].
  done.
Qed.

Lemma elem_of_planned_entries p tool last :
  (forall t, usage_list p t <> [] -> t ∈ total_tools p) ->
  (tool, last) ∈ planned_entries set_iter p <->
  usage_list p tool <> [] /\ last = max_list (usage_list p tool).
Proof.
  intros Hknown. unfold planned_entries.
  rewrite sorted_by_last_use_perm, elem_of_last_use_entries, elem_of_set_iter.
  naive_solver.
Qed.

(** After the analysis of a fresh file the planner's order is the order of
    the specification. *)
Lemma planned_entries_spec_order n p :
  usage_inv n p ->
  planned_entries set_iter p = spec_insertion_order (tool_usage p)
  /\ Sorted spec_order (planned_entries set_iter p).
Proof.
  intros Hinv.
  assert (Sorted spec_order (planned_entries set_iter p)) as Hsorted.
  { apply sorted_distinct_spec_order; [apply sorted_by_last_use_sorted|].
    unfold planned_entries. rewrite sorted_by_last_use_perm.
    eapply last_use_entries_snd; [done|apply set_iter_NoDup]. }
  split; [|done].
  apply (Sorted_unique spec_order); [done|apply Sorted_merge_sort; apply _|].
  unfold spec_insertion_order. rewrite merge_sort_Permutation.
  apply NoDup_Permutation.
  - apply (NoDup_fmap_1 fst). unfold planned_entries.
    rewrite sorted_by_last_use_perm.
    apply last_use_entries_fst, set_iter_NoDup.
  - apply (NoDup_fmap_1 fst), last_uses_fst.
  - intros [t u]. rewrite elem_of_last_uses.
    apply elem_of_planned_entries. by destruct Hinv.
Qed.


End PlannerOrder.


(** ** Where the blocks land *)

Lemma shutdown_fold_fst_ext entries out p q :
  lines q = lines p -> config q = config p ->
  fst (foldl shutdown_tool (out, q) entries)
  = fst (foldl shutdown_tool (out, p) entries).
Proof.
  revert out p q. induction entries as [|[tool last] entries IH];
    intros out p q Hl Hc; [done|].
  cbn [foldl]. rewrite !shutdown_tool_step.
  rewrite (shuts_down_lines q p tool Hl), (find_safe_lines q p 0 0 tool Hl), Hc.
  destruct (shuts_down p tool); by apply IH.
Qed.

Lemma insert_shutdown_commands_plan set_iter p :
  fst (insert_shutdown_commands set_iter p)
  = apply_plan p (planned_entries set_iter p).
Proof.
  unfold insert_shutdown_commands, last_usage_items, planned_entries, apply_plan.
  destruct (note_last_use_fold (set_iter (total_tools p)) [] p) as [Hf Hs].
  destruct (foldl note_last_use ([], p) (set_iter (total_tools p)))
    as [items q]. cbn [fst snd] in Hf, Hs. rewrite app_nil_l in Hf. subst items.
  destruct Hs as (Hl & Hc & _). rewrite Hl.
  by apply shutdown_fold_fst_ext.
Qed.

Section MisplacedBlock.

Variable set_iter : gset N -> list N.
Hypothesis set_iter_perm : forall s, set_iter s ≡ₚ elements s.

(** C3: the mutator keeps every original line, in order, and adds nothing
    but the blocks of the tools it shuts down; but a block does not always
    follow its standby line.  The insertions are made in descending order of
    last use, not of insertion index: in [two_tool_file] the block of tool 0
    is inserted first, at index 1, and the index 4 planned for tool 1 then
    points into that block, fourteen lines before the standby line of
    tool 1. *)
Theorem mutator_keeps_lines_misplaces_block :
  (forall p,
      lines p `sublist_of` fst (insert_shutdown_commands set_iter p)
      /\ fst (insert_shutdown_commands set_iter p)
         ≡ₚ lines p ++ (shut_tools p (planned_entries set_iter p)
                          ≫= generate_shutdown_commands (config p)))
  /\ (let p := analyze_tool_usage (loaded (readlines two_tool_file)) in
      let out := fst (insert_shutdown_commands set_iter p) in
      tools_by_last_use set_iter p = [(0%N, 5); (1%N, 2)]
      /\ find_safe_insertion_point p 5 0 = Some 1
      /\ find_safe_insertion_point p 2 1 = Some 4
      /\ lines p !! 3 = Some ("M104 S100 T1" +:+ nl)
      /\ out !! 17 = Some ("M104 S100 T1" +:+ nl)
      /\ out !! 18 = Some ("T0" +:+ nl)
      /\ take 7 (drop 4 out) = generate_shutdown_commands default_config 1
      /\ take 3 (drop 1 out) ++ take 4 (drop 11 out)
         = generate_shutdown_commands default_config 0).
Proof.
  split.
  - intros p.
    destruct (insert_shutdown_commands_spec set_iter p)
      as (_ & _ & _ & _ & _ & _ & _ & Hsub & Hperm).
    by split.
  - cbv zeta.
    pose proof (usage_inv_analyzed (readlines two_tool_file) "print.gcode" false)
      as Hinv.
    destruct (planned_entries_spec_order set_iter set_iter_perm _ _ Hinv)
      as [Heq _].
    fold (loaded (readlines two_tool_file)) in Heq.
    rewrite tools_by_last_use_planned, insert_shutdown_commands_plan, Heq.
    assert (spec_insertion_order
              (tool_usage (analyze_tool_usage (loaded (readlines two_tool_file))))
            = [(0%N, 5); (1%N, 2)]) as -> by (vm_compute; reflexivity).
    vm_compute. split_and!; reflexivity.
Qed.

End MisplacedBlock.

Lemma mutator_keeps_lines_misplaces_block_witness :
  (forall s : gset N, elements s ≡ₚ elements s)
  /\ (let p := analyze_tool_usage (loaded (readlines two_tool_file)) in
      let out := fst (insert_shutdown_commands elements p) in
      out !! 17 = Some ("M104 S100 T1" +:+ nl)
      /\ out !! 18 = Some ("T0" +:+ nl)
      /\ take 7 (drop 4 out) = generate_shutdown_commands default_config 1).
Proof.
  split; [intros s; reflexivity|].
  destruct (proj2 (mutator_keeps_lines_misplaces_block elements
                     (fun s => reflexivity _)))
    as (_ & _ & _ & _ & H17 & H18 & H4 & _).
  split_and!; [exact H17|exact H18|exact H4].
Defined.

(** ** The report *)

Lemma tool_report_same p q t : same_reads p q -> tool_report q t = tool_report p t.
Proof.
  intros (_ & _ & _ & Hs & _ & Hu & Hc). unfold tool_report.
  by rewrite Hu, Hc, Hs.
Qed.

Lemma report_tool_step report p tool :
  fst (report_tool (report, p) tool) = report ++ tool_report p tool
  /\ same_reads p (snd (report_tool (report, p) tool)).
Proof.
  unfold report_tool, tool_report.
  destruct (read_usage_spec tool p) as [Hf Hs].
  destruct (read_usage tool p) as [u q]. cbn [fst snd] in *. subst u.
  destruct (usage_list p tool) as [|k l]; [by rewrite app_nil_r|].
  destruct (read_changes_spec tool q) as [Hf' Hs'].
  destruct (read_changes tool q) as [n r]. cbn [fst snd] in *. subst n.
  pose proof (same_reads_trans _ _ _ Hs Hs') as Hpr.
  split; [|done].
  destruct Hs as (_ & _ & _ & _ & _ & _ & Hc).
  destruct Hpr as (_ & _ & _ & Hsh & _).
  by rewrite Hc, Hsh.
Qed.

Lemma report_tool_fold (ts : list N) report p :
  fst (foldl report_tool (report, p) ts) = report ++ (ts ≫= tool_report p)
  /\ same_reads p (snd (foldl report_tool (report, p) ts)).
Proof.
  revert report p. induction ts as [|t ts IH]; intros report p.
  - cbn. rewrite app_nil_r. split; [done|apply same_reads_refl].
  - cbn [foldl].
    destruct (report_tool_step report p t) as [Hf Hs].
    destruct (report_tool (report, p) t) as [report' q]. cbn [fst snd] in *.
    destruct (IH report' q) as [Hf' Hs']. split; [|by eapply same_reads_trans].
    rewrite Hf', Hf, <- app_assoc. f_equal. cbn [mbind list_bind]. f_equal.
    clear -Hs. induction ts as [|t' ts IH]; [done|]. cbn.
    by rewrite IH, (tool_report_same p q t' Hs).
Qed.

Lemma generate_report_spec timestamp p :
  fst (generate_report timestamp p)
  = report_head timestamp p
    ++ (sorted_tools (total_tools p) ≫= tool_report p) ++ report_foot
  /\ same_reads p (snd (generate_report timestamp p)).
Proof.
  unfold generate_report.
  destruct (report_tool_fold (sorted_tools (total_tools p))
              (report_head timestamp p) p) as [Hf Hs].
  destruct (foldl report_tool _ _) as [report q]. cbn [fst snd] in *.
  by rewrite Hf, <- app_assoc.
Qed.

Lemma report_position_le out idx : report_position idx out <= idx + length out.
Proof.
  revert idx. induction out as [|line out IH]; intros idx; cbn; [lia|].
  destruct (contains ";LAYER:0" line || contains "thumbnail end" (lower line)).
  - destruct (contains ";LAYER:0" line); lia.
  - specialize (IH (S idx)). lia.
Qed.

Lemma insert_report_spec timestamp out p :
  exists pos,
    pos <= length out
    /\ fst (insert_report timestamp out p)
       = take pos out ++ fst (generate_report timestamp p) ++ drop pos out
    /\ snd (insert_report timestamp out p) = snd (generate_report timestamp p).
Proof.
  exists (report_position 0 out). unfold insert_report.
  pose proof (report_position_le out 0) as Hle. cbn in Hle.
  destruct (generate_report timestamp p) as [report q]. cbn [fst snd].
  split; [done|]. split; [|done]. by apply insert_block_spec.
Qed.

Lemma elem_of_sorted_tools s t : t ∈ sorted_tools s <-> t ∈ s.
Proof.
  unfold sorted_tools. rewrite merge_sort_Permutation. apply elem_of_elements.
Qed.

(** ** The whole run *)

Lemma analyze_line_dry_run n raw loc p :
  dry_run (snd (analyze_line n raw (loc, p))) = dry_run p.
Proof.
  rewrite analyze_line_classify. cbv zeta.
  destruct (classify raw) as [m|v|id|v|]; cbn [snd]; try done.
  - unfold select_tool.
    destruct (negb (in_start_gcode _)); [|done].
    destruct (first_tool_after_start _); [done|].
    destruct (previous_tool _); [|done].
    destruct (negb _); [|done].
    unfold count_change, dd_get. by destruct (tool_changes p !! id).
  - by destruct (track_extrusion_frame n v p) as (_ & _ & _ & _ & _ & _ & -> & _).
Qed.

Lemma analyze_from_dry_run ls n loc p :
  dry_run (snd (analyze_from n ls (loc, p))) = dry_run p.
Proof.
  revert n loc p. induction ls as [|raw ls IH]; intros n loc p; [done|].
  cbn [analyze_from].
  pose proof (analyze_line_dry_run n raw loc p) as H.
  destruct (analyze_line n raw (loc, p)) as [loc' p']. cbn [snd] in H.
  by rewrite IH.
Qed.

(** The processor after the analysis of a freshly loaded file. *)
Lemma analyzed_fresh content f d :
  let p := analyze_tool_usage (set_lines content (init f d)) in
  lines p = content /\ config p = default_config
  /\ shutdown_inserted p = ∅ /\ dry_run p = d.
Proof.
  cbv zeta.
  destruct (analyze_tool_usage_frame (set_lines content (init f d)))
    as (-> & -> & -> & _).
  split_and!; try done.
  unfold analyze_tool_usage.
  destruct (print_summary_frame
              (snd (analyze_from 0 (lines (set_lines content (init f d)))
                      (init_locals, set_lines content (init f d)))))
    as (_ & _ & _ & _ & _ & _ & _ & -> & _).
  by rewrite analyze_from_dry_run.
Qed.

Section WholeRun.

Variable set_iter : gset N -> list N.
Variable timestamp : string.

(** What a run of [process] builds when the analysis finds a tool: the
    lines of [insert_shutdown_commands] with the report spliced in. *)
Lemma process_spec content f d :
  let p1 := analyze_tool_usage (set_lines content (init f d)) in
  let r := insert_shutdown_commands set_iter p1 in
  let o := process set_iter timestamp content (init f d) in
  total_tools p1 <> ∅ ->
  success o = true
  /\ saved o = (if d then None else Some (built o))
  /\ same_reads (snd r) (final o)
  /\ exists pos,
      pos <= length (fst r)
      /\ built o = take pos (fst r)
                    ++ fst (generate_report timestamp (snd r))
                    ++ drop pos (fst r).
Proof.
  cbv zeta. intros Hne. unfold process.
  destruct (analyzed_fresh content f d) as (Hl & Hc & Hsh & Hd).
  rewrite decide_False by done.
  destruct (insert_shutdown_commands_spec set_iter
              (analyze_tool_usage (set_lines content (init f d))))
    as (_ & Hc2 & _ & Hd2 & _).
  destruct (insert_shutdown_commands set_iter
              (analyze_tool_usage (set_lines content (init f d))))
    as [out2 p2]. cbn [fst snd] in *.
  rewrite Hc2, Hc. cbn [cfg_generate_report default_config].
  destruct (insert_report_spec timestamp out2 p2) as (pos & Hpos & Hb & Hf).
  destruct (generate_report_spec timestamp p2) as [_ Hs].
  destruct (insert_report timestamp out2 p2) as [out3 p3]. cbn [fst snd] in *.
  subst p3.
  assert (dry_run (snd (generate_report timestamp p2)) = d) as Hd3.
  { destruct Hs as (_ & _ & _ & _ & -> & _). congruence. }
  assert (config (snd (generate_report timestamp p2)) = default_config) as Hc3.
  { destruct Hs as (_ & -> & _). congruence. }
  rewrite Hd3, Hc3. destruct d; cbn; split_and!; eauto.
Qed.

End WholeRun.


Lemma elem_of_shut_tools p entries t :
  t ∈ shut_tools p entries <-> t ∈ entries.*1 /\ shuts_down p t = true.
Proof. unfold shut_tools. by rewrite list_elem_of_filter, (comm and). Qed.

Section SkippedTool.

Variable set_iter : gset N -> list N.
Variable timestamp : string.


End SkippedTool.


(** ** Lines the analyzer passes over *)

Lemma strip_cons_nonspace c r :
  isspace c = false -> exists r', strip (String c r) = String c r'.
Proof.
  intros Hc. unfold strip. cbn [lstrip]. rewrite Hc. cbn [rstrip].
  destruct (rstrip r); [rewrite Hc|]; eauto.
Qed.

Lemma strip_cons2_nonspace c1 c2 r :
  isspace c1 = false -> isspace c2 = false ->
  exists r', strip (String c1 (String c2 r)) = String c1 (String c2 r').
Proof.
  intros H1 H2. unfold strip. cbn [lstrip]. rewrite H1.
  change (rstrip (String c1 (String c2 r)))
    with (match rstrip (String c2 r) with
          | EmptyString => if isspace c1 then EmptyString else String c1 EmptyString
          | r' => String c1 r'
          end).
  assert (exists r', rstrip (String c2 r) = String c2 r') as [r' ->]; [|eauto].
  cbn [rstrip]. destruct (rstrip r); [rewrite H2|]; eauto.
Qed.

Lemma classify_empty raw : strip raw = EmptyString -> inert raw.
Proof. unfold inert, classify. intros ->. reflexivity. Qed.

Lemma classify_comment raw r : strip raw = String ";" r -> inert raw.
Proof.
  unfold inert, classify. intros ->. cbv zeta.
  change (startswith "M82" (String ";" r)) with false.
  change (startswith "M83" (String ";" r)) with false.
  cbv iota.
  assert (re_g92_e_match (String ";" r) = None) as ->.
  { unfold re_g92_e_match. change (lstrip (String ";" r)) with (String ";" r).
    by destruct r as [|? [|? [|? ?]]]. }
  reflexivity.
Qed.

Lemma classify_m1 raw r : strip raw = String "M" (String "1" r) -> inert raw.
Proof.
  unfold inert, classify. intros ->. cbv zeta.
  change (startswith "M82" (String "M" (String "1" r))) with false.
  change (startswith "M83" (String "M" (String "1" r))) with false.
  cbv iota.
  assert (re_g92_e_match (String "M" (String "1" r)) = None) as ->.
  { unfold re_g92_e_match.
    change (lstrip (String "M" (String "1" r))) with (String "M" (String "1" r)).
    by destruct r as [|? [|? ?]]. }
  reflexivity.
Qed.

(** A line that starts with a semicolon is a comment to the analyzer. *)
Lemma inert_comment r : inert (String ";" r).
Proof.
  destruct (strip_cons_nonspace ";" r eq_refl) as [r' H].
  by eapply classify_comment.
Qed.

Lemma inert_m1 r : inert (String "M" (String "1" r)).
Proof.
  destruct (strip_cons2_nonspace "M" "1" r eq_refl eq_refl) as [r' H].
  by eapply classify_m1.
Qed.

Lemma inert_nl : inert nl.
Proof. reflexivity. Qed.

Ltac inert_lines :=
  repeat (apply Forall_cons; split;
          [first [apply inert_nl
                 |rewrite ?append_cons; first [apply inert_comment|apply inert_m1]]|]);
  try apply Forall_nil_2.

Lemma block_inert cfg tool : Forall inert (generate_shutdown_commands cfg tool).
Proof.
  unfold generate_shutdown_commands.
  destruct (cfg_add_comments cfg), (cfg_shutdown_heater cfg),
    (cfg_shutdown_fan cfg); cbn [app]; inert_lines.
Qed.

Lemma tool_report_inert p tool : Forall inert (tool_report p tool).
Proof.
  unfold tool_report, tool_report_lines.
  destruct (usage_list p tool); [constructor|]. inert_lines.
Qed.

Lemma report_inert timestamp p : Forall inert (fst (generate_report timestamp p)).
Proof.
  destruct (generate_report_spec timestamp p) as [-> _].
  rewrite !Forall_app. split_and!.
  - unfold report_head. cbv zeta. rewrite !Forall_app. split_and!.
    + inert_lines.
    + destruct (Nat.ltb 0 (total_tool_changes p)); inert_lines.
    + inert_lines.
  - apply Forall_bind. apply Forall_forall. intros t _. apply tool_report_inert.
  - unfold report_foot. inert_lines.
Qed.

(** ** Lines put in between *)

Lemma weave_refl P l : weave P l l.
Proof. induction l; by constructor. Qed.

Lemma weave_insert P l l1 l2 x :
  P x -> weave P l (l1 ++ l2) -> weave P l (l1 ++ x :: l2).
Proof.
  intros Hx. revert l. induction l1 as [|y l1 IH]; intros l H; cbn in *.
  - by constructor.
  - inversion H; subst; constructor; auto.
Qed.

Lemma weave_py_insert P l l' i x :
  P x -> weave P l l' -> weave P l (py_insert i x l').
Proof.
  intros Hx H. unfold py_insert. apply weave_insert; [done|].
  by rewrite take_drop.
Qed.

Lemma weave_insert_block P l l' i cmds :
  Forall P cmds -> weave P l l' -> weave P l (insert_block i cmds l').
Proof.
  intros Hc. unfold insert_block.
  apply Forall_reverse in Hc. revert l'.
  induction Hc as [|c cs Hc Hcs IH]; intros l' H; [done|].
  cbn [foldl]. apply IH. by apply weave_py_insert.
Qed.

Lemma weave_sublist P l l' : weave P l l' -> l `sublist_of` l'.
Proof. induction 1; by constructor. Qed.

Lemma weave_shutdown_fold P l entries out p :
  (forall cfg t, Forall P (generate_shutdown_commands cfg t)) ->
  weave P l out ->
  weave P l (fst (foldl shutdown_tool (out, p) entries)).
Proof.
  intros HP. revert out p.
  induction entries as [|[tool last] entries IH]; intros out p H; [done|].
  cbn [foldl]. rewrite shutdown_tool_step.
  destruct (shuts_down p tool); apply IH; [|done].
  by apply weave_insert_block.
Qed.

Lemma weave_insert_shutdown_commands P set_iter p :
  (forall cfg t, Forall P (generate_shutdown_commands cfg t)) ->
  weave P (lines p) (fst (insert_shutdown_commands set_iter p)).
Proof.
  intros HP. rewrite insert_shutdown_commands_plan. unfold apply_plan.
  apply weave_shutdown_fold; [done|apply weave_refl].
Qed.

(** ** The analysis of a file with lines put in between *)

Lemma usage_sim_refl p : usage_sim p p.
Proof. by unfold usage_sim. Qed.

Lemma exceeds_tolerance_sim p q v :
  usage_sim p q -> exceeds_tolerance p v = exceeds_tolerance q v.
Proof.
  intros (Hm & Hp & _). unfold exceeds_tolerance. by rewrite Hm, Hp.
Qed.

Lemma usage_sim_track n m v p q :
  usage_sim p q ->
  usage_sim (track_extrusion n v p) (track_extrusion m v q).
Proof.
  intros Hsim. pose proof (exceeds_tolerance_sim p q v Hsim) as He.
  destruct Hsim as (Hm & Hp & Hc & Ht & Hu). unfold usage_sim.
  destruct (track_extrusion_frame n v p) as (_ & _ & -> & _ & -> & _).
  destruct (track_extrusion_frame m v q) as (_ & _ & -> & _ & -> & _).
  destruct (track_extrusion_spec n v p) as [_ ->].
  destruct (track_extrusion_spec m v q) as [_ ->].
  rewrite !track_extrusion_tools, <- He, Hm, Hp, Hc, Ht.
  split_and!; try done.
  intros t. rewrite !track_extrusion_usage, <- He, <- Hc.
  destruct (exceeds_tolerance p v); [|done].
  case_decide; [|done]. rewrite !length_app. cbn. by rewrite Hu.
Qed.

Lemma usage_sim_select id loc loc' p q :
  usage_sim p q ->
  usage_sim (snd (select_tool id (loc, p))) (snd (select_tool id (loc', q))).
Proof.
  intros (Hm & Hp & Hc & Ht & Hu). unfold usage_sim.
  destruct (select_tool_effect id loc p)
    as (_ & _ & _ & -> & -> & Hu1 & -> & -> & _).
  destruct (select_tool_effect id loc' q)
    as (_ & _ & _ & -> & -> & Hu2 & -> & -> & _).
  split_and!; try done; [by rewrite Ht|].
  intros t. unfold usage_list. rewrite Hu1, Hu2. apply Hu.
Qed.

(** The same line moves two processors that agree to processors that
    agree, whatever the line numbers and the local variables. *)
Lemma usage_sim_line n m raw loc loc' p q :
  usage_sim p q ->
  usage_sim (snd (analyze_line n raw (loc, p)))
            (snd (analyze_line m raw (loc', q))).
Proof.
  intros Hsim. rewrite !analyze_line_classify. cbv zeta.
  destruct (classify raw) as [mode|v|id|v|]; cbn [snd].
  - destruct Hsim as (Hm & Hp & Hc & Ht & Hu). by split_and!.
  - destruct Hsim as (Hm & Hp & Hc & Ht & Hu). by split_and!.
  - by apply usage_sim_select.
  - by apply usage_sim_track.
  - done.
Qed.

Lemma inert_line m raw loc q :
  inert raw -> snd (analyze_line m raw (loc, q)) = q.
Proof. intros H. rewrite analyze_line_classify. cbv zeta. by rewrite H. Qed.

Lemma usage_sim_weave l l' :
  weave inert l l' ->
  forall n m loc loc' p q,
    usage_sim p q ->
    usage_sim (snd (analyze_from n l (loc, p)))
              (snd (analyze_from m l' (loc', q))).
Proof.
  induction 1 as [|x l l' Hw IH|x l l' Hx Hw IH]; intros n m loc loc' p q Hsim.
  - done.
  - cbn [analyze_from].
    pose proof (usage_sim_line n m x loc loc' p q Hsim) as Hs.
    destruct (analyze_line n x (loc, p)) as [loc1 p1].
    destruct (analyze_line m x (loc', q)) as [loc1' q1].
    by apply IH.
  - cbn [analyze_from].
    pose proof (inert_line m x loc' q Hx) as Hq.
    destruct (analyze_line m x (loc', q)) as [loc1' q1]. cbn [snd] in Hq.
    subst q1. by apply IH.
Qed.

Lemma usage_sim_summary p q :
  usage_sim p q -> usage_sim (print_summary p) (print_summary q).
Proof.
  intros (Hm & Hp & Hc & Ht & Hu). unfold usage_sim.
  destruct (print_summary_frame p)
    as (_ & _ & _ & -> & -> & -> & -> & _ & _ & _ & Hu1).
  destruct (print_summary_frame q)
    as (_ & _ & _ & -> & -> & -> & -> & _ & _ & _ & Hu2).
  split_and!; try done. intros t. by rewrite Hu1, Hu2.
Qed.

(** The analysis of a fresh file and of the same file with inert lines put
    in between agree on the known tools and on which tools have usage. *)
Lemma usage_sim_analyzed content content' f d f' d' :
  weave inert content content' ->
  usage_sim (analyze_tool_usage (set_lines content (init f d)))
            (analyze_tool_usage (set_lines content' (init f' d'))).
Proof.
  intros Hw. unfold analyze_tool_usage. apply usage_sim_summary.
  cbn [lines set_lines]. by apply usage_sim_weave.
Qed.

Lemma weave_splice P l l1 l2 xs :
  Forall P xs -> weave P l (l1 ++ l2) -> weave P l (l1 ++ xs ++ l2).
Proof.
  induction 1 as [|x xs Hx Hxs IH]; intros H; [done|].
  cbn. apply weave_insert; auto.
Qed.

(** ** Counting a line *)

Lemma occurrences_app x a b :
  occurrences x (a ++ b) = occurrences x a + occurrences x b.
Proof. unfold occurrences. by rewrite filter_app, length_app. Qed.

Lemma occurrences_perm x a b : a ≡ₚ b -> occurrences x a = occurrences x b.
Proof. intros H. unfold occurrences. by rewrite H. Qed.

Lemma occurrences_pos x l : x ∈ l -> 1 <= occurrences x l.
Proof.
  intros (l1 & l2 & ->)%list_elem_of_split.
  rewrite occurrences_app. unfold occurrences at 2.
  rewrite filter_cons, decide_True by done. cbn. lia.
Qed.

Lemma heater_off_line_in_block tool :
  heater_off_line tool ∈ generate_shutdown_commands default_config tool.
Proof.
  unfold generate_shutdown_commands, heater_off_line. cbn.
  do 4 apply list_elem_of_further. apply list_elem_of_here.
Qed.

Lemma occurrences_blocks tool (tools : list N) :
  tool ∈ tools ->
  1 <= occurrences (heater_off_line tool)
         (tools ≫= generate_shutdown_commands default_config).
Proof.
  intros H. apply occurrences_pos, list_elem_of_bind.
  exists tool. split; [apply heater_off_line_in_block|done].
Qed.

(** ** A second run on the output of a first run *)

Lemma shuts_down_iff p tool :
  shuts_down p tool = true <->
  exists raw, raw ∈ lines p /\ contains (standby_marker tool) (strip raw) = true.
Proof.
  unfold shuts_down, find_safe_insertion_point.
  pose proof (find_last_standby_command_spec p tool) as H.
  destruct (find_last_standby_command p tool) as [r|]; split.
  - intros _. destruct H as (k & _ & Hk & _). unfold standby_at in Hk.
    destruct (lines p !! k) as [raw|] eqn:E; [|done].
    exists raw. split; [by eapply list_elem_of_lookup_2|done].
  - intros _. destruct H as (k & -> & _).
    by replace (k + 1 =? 0) with false by (symmetry; apply Nat.eqb_neq; lia).
  - done.
  - intros (raw & [k Hk]%list_elem_of_lookup_1 & Hc).
    specialize (H k). unfold standby_at in H. rewrite Hk in H. congruence.
Qed.

(** ** Reading back what was written *)

Lemma split_lines_full l rest :
  full_line l = true -> split_lines (l +:+ rest) = l :: split_lines rest.
Proof.
  induction l as [|c r IH]; [done|]. cbn [full_line]. rewrite append_cons.
  cbn [split_lines]. destruct (Ascii.eqb c newline) eqn:E.
  - intros ->%String.eqb_eq. by rewrite append_nil_l.
  - intros [_ Hr]%andb_prop. by rewrite (IH Hr).
Qed.

Lemma universal_newlines_full l rest :
  full_line l = true ->
  universal_newlines (l +:+ rest) = l +:+ universal_newlines rest.
Proof.
  induction l as [|c r IH]; [done|]. cbn [full_line]. rewrite !append_cons.
  cbn [universal_newlines]. destruct (Ascii.eqb c newline) eqn:E.
  - intros ->%String.eqb_eq. apply Ascii.eqb_eq in E as ->.
    by rewrite !append_nil_l.
  - intros [Hc Hr]%andb_prop. apply negb_true_iff in Hc. rewrite Hc.
    by rewrite (IH Hr).
Qed.

(** Lines that each end with their only line break are read back as they
    were written. *)
Lemma readlines_writelines ls :
  Forall (fun l => full_line l = true) ls -> readlines (writelines ls) = ls.
Proof.
  unfold readlines.
  induction 1 as [|l ls Hl Hls IH]; [done|].
  cbn [writelines foldr]. rewrite (universal_newlines_full _ _ Hl).
  rewrite (split_lines_full _ _ Hl). by f_equal.
Qed.

Lemma full_line_app a b :
  all_chars no_break a = true -> full_line b = true ->
  full_line (a +:+ b) = true.
Proof.
  intros Ha Hb. induction a as [|c a IH]; [done|]. rewrite append_cons.
  cbn in Ha. apply andb_prop in Ha as [Hc Ha]. unfold no_break in Hc.
  apply andb_prop in Hc as [H1 H2]. apply negb_true_iff in H1.
  cbn [full_line]. rewrite H1, H2. by apply IH.
Qed.

Lemma digits_no_break s : all_chars isdigit s = true -> all_chars no_break s = true.
Proof.
  induction s as [|c r IH]; [done|]. cbn. intros [Hc Hr]%andb_prop.
  rewrite (IH Hr), andb_true_r. unfold isdigit, no_break in *.
  apply andb_prop in Hc as [H1 H2]. apply N.leb_le in H1, H2.
  apply andb_true_intro. split; apply negb_true_iff, Ascii.eqb_neq;
    intros ->; vm_compute in H1; by destruct H1.
Qed.

Lemma str_N_no_break n : all_chars no_break (str_N n) = true.
Proof. apply digits_no_break, str_N_digits. Qed.

Ltac full_lines :=
  repeat (apply Forall_cons; split;
          [repeat first
             [ reflexivity
             | apply full_line_app;
               [first [reflexivity|apply str_N_no_break|assumption]|] ]|]);
  try apply Forall_nil_2.

Lemma block_full_lines cfg tool :
  Forall (fun l => full_line l = true) (generate_shutdown_commands cfg tool).
Proof.
  unfold generate_shutdown_commands.
  destruct (cfg_add_comments cfg), (cfg_shutdown_heater cfg),
    (cfg_shutdown_fan cfg); cbn [app]; full_lines.
Qed.

Lemma tool_report_full_lines p tool :
  Forall (fun l => full_line l = true) (tool_report p tool).
Proof.
  unfold tool_report, tool_report_lines.
  destruct (usage_list p tool); [constructor|].
  destruct (decide (tool ∈ shutdown_inserted p)); full_lines.
Qed.

Lemma report_full_lines timestamp p :
  all_chars no_break timestamp = true ->
  Forall (fun l => full_line l = true) (fst (generate_report timestamp p)).
Proof.
  intros Hts. destruct (generate_report_spec timestamp p) as [-> _].
  rewrite !Forall_app. split_and!.
  - unfold report_head. cbv zeta. rewrite !Forall_app. split_and!.
    + destruct (dry_run p); full_lines.
    + destruct (Nat.ltb 0 (total_tool_changes p)); full_lines.
    + full_lines.
  - apply Forall_bind. apply Forall_forall. intros t _.
    apply tool_report_full_lines.
  - unfold report_foot. full_lines.
Qed.

Lemma weave_Forall P l l' : weave P l l' -> Forall P l -> Forall P l'.
Proof.
  induction 1 as [|x l l' Hw IH|x l l' Hx Hw IH]; intros H; [done| |].
  - apply Forall_cons in H as [Hx Hl]. constructor; auto.
  - constructor; auto.
Qed.

Section Rerun.

Variable set_iter : gset N -> list N.
Hypothesis set_iter_perm : forall s, set_iter s ≡ₚ elements s.

(** What a run on a fresh processor leaves: the tools shut down, and the
    original lines with inert lines put in between. *)
Lemma run_facts timestamp content f d :
  let p1 := analyze_tool_usage (set_lines content (init f d)) in
  let o := process set_iter timestamp content (init f d) in
  let tools := shut_tools p1 (planned_entries set_iter p1) in
  total_tools p1 <> ∅ ->
  saved o = (if d then None else Some (built o))
  /\ shutdown_inserted (final o) = list_to_set tools
  /\ weave inert content (built o)
  /\ exists report,
      built o
      ≡ₚ content ++ (tools ≫= generate_shutdown_commands default_config)
         ++ report.
Proof.
  intros p1 o tools Hne.
  destruct (analyzed_fresh content f d) as (Hl & Hc & Hsh & Hd).
  fold p1 in Hl, Hc, Hsh, Hd.
  destruct (process_spec set_iter timestamp content f d Hne)
    as (_ & Hsaved & Hsame & pos & Hpos & Hbuilt).
  fold p1 in Hsame, Hpos, Hbuilt. fold o in Hsaved, Hsame, Hbuilt.
  destruct (insert_shutdown_commands_spec set_iter p1)
    as (_ & _ & _ & _ & _ & _ & Hsi & _ & Hperm).
  fold tools in Hsi, Hperm.
  rewrite Hsh, (right_id_L ∅ (∪)) in Hsi. rewrite Hl, Hc in Hperm.
  destruct Hsame as (_ & _ & _ & Hsf & _).
  split_and!.
  - done.
  - by rewrite Hsf.
  - rewrite Hbuilt. apply weave_splice; [apply report_inert|].
    rewrite take_drop. rewrite <- Hl at 1.
    apply weave_insert_shutdown_commands, block_inert.
  - exists (fst (generate_report timestamp
                   (snd (insert_shutdown_commands set_iter p1)))).
    rewrite Hbuilt.
    rewrite (Permutation_app_comm (take pos _)), <- app_assoc.
    rewrite (Permutation_app_comm (drop pos _)), take_drop.
    rewrite (Permutation_app_comm _ (fst _)), Hperm.
    by rewrite <- !app_assoc.
Qed.

Variable timestamp1 timestamp2 : string.

(** A second run on the lines a first run built shuts down again every
    tool the first run shut down and adds one more block for it. *)
Lemma rerun_on_built_lines content f d tool :
  let o1 := process set_iter timestamp1 content (init f false) in
  let o2 := process set_iter timestamp2 (built o1) (init f d) in
  tool ∈ shutdown_inserted (final o1) ->
  saved o1 = Some (built o1)
  /\ tool ∈ shutdown_inserted (final o2)
  /\ 1 <= occurrences (heater_off_line tool) (built o1)
  /\ occurrences (heater_off_line tool) (built o1) + 1
     <= occurrences (heater_off_line tool) (built o2).
Proof.
  intros o1 o2 Hshut.
  set (p1 := analyze_tool_usage (set_lines content (init f false))).
  set (p2 := analyze_tool_usage (set_lines (built o1) (init f d))).
  destruct (analyzed_fresh content f false) as (Hl1 & _ & Hsh1 & _).
  fold p1 in Hl1, Hsh1.
  assert (total_tools p1 <> ∅) as Hne1.
  { intros E. subst o1. unfold process in Hshut. fold p1 in Hshut.
    rewrite decide_True in Hshut by done. cbn in Hshut.
    rewrite Hsh1 in Hshut. set_solver. }
  destruct (run_facts timestamp1 content f false Hne1)
    as (Hsaved & Hsi1 & Hweave & report1 & Hperm1).
  fold p1 in Hsi1, Hperm1. fold o1 in Hsaved, Hsi1, Hweave, Hperm1.
  rewrite Hsi1, elem_of_list_to_set in Hshut.
  pose proof (occurrences_blocks tool _ Hshut) as Hocc1.
  apply elem_of_shut_tools in Hshut as [Hentry Hmark].
  apply list_elem_of_fmap in Hentry as ([t last] & Ht & Hentry).
  cbn in Ht. subst t.
  pose proof (usage_inv_analyzed content f false) as (Hknown1 & _).
  fold p1 in Hknown1.
  apply (elem_of_planned_entries set_iter set_iter_perm p1 tool last Hknown1)
    in Hentry as [Husage1 _].
  pose proof (usage_sim_analyzed content (built o1) f false f d Hweave)
    as (_ & _ & _ & Htt & Hlen).
  fold p1 p2 in Htt, Hlen.
  assert (usage_list p2 tool <> []) as Husage2.
  { intros E. specialize (Hlen tool). rewrite E in Hlen.
    by destruct (usage_list p1 tool). }
  assert (total_tools p2 <> ∅) as Hne2 by (by rewrite <- Htt).
  destruct (run_facts timestamp2 (built o1) f d Hne2)
    as (_ & Hsi2 & _ & report2 & Hperm2).
  fold p2 in Hsi2, Hperm2. fold o2 in Hsi2, Hperm2.
  destruct (analyzed_fresh (built o1) f d) as (Hl2 & _). fold p2 in Hl2.
  pose proof (usage_inv_analyzed (built o1) f d) as (Hknown2 & _).
  fold p2 in Hknown2.
  assert (tool ∈ shut_tools p2 (planned_entries set_iter p2)) as Hshut2.
  { apply elem_of_shut_tools. split.
    - apply list_elem_of_fmap. exists (tool, max_list (usage_list p2 tool)).
      split; [done|].
      by apply (elem_of_planned_entries set_iter set_iter_perm p2).
    - apply shuts_down_iff in Hmark as (raw & Hin & Hc).
      apply shuts_down_iff. exists raw. split; [|done].
      rewrite Hl2. eapply elem_of_sublist; [|by eapply weave_sublist].
      by rewrite <- Hl1. }
  split_and!.
  - done.
  - by rewrite Hsi2, elem_of_list_to_set.
  - rewrite (occurrences_perm _ _ _ Hperm1), !occurrences_app. lia.
  - rewrite (occurrences_perm _ _ _ Hperm2), !occurrences_app.
    pose proof (occurrences_blocks tool _ Hshut2). lia.
Qed.

(** The lines a run builds from full lines, with a time stamp that holds no
    line break, are read back from the file as they were written. *)
Lemma built_read_back content f d :
  Forall (fun l => full_line l = true) content ->
  all_chars no_break timestamp1 = true ->
  let o := process set_iter timestamp1 content (init f d) in
  readlines (writelines (built o)) = built o.
Proof.
  intros Hcontent Hts o. apply readlines_writelines.
  set (p1 := analyze_tool_usage (set_lines content (init f d))).
  destruct (decide (total_tools p1 = ∅)) as [E|Hne].
  - subst o. unfold process. fold p1. by rewrite decide_True.
  - destruct (process_spec set_iter timestamp1 content f d Hne)
      as (_ & _ & _ & pos & Hpos & Hbuilt).
    fold p1 in Hbuilt. fold o in Hbuilt. rewrite Hbuilt.
    eapply weave_Forall; [|exact Hcontent].
    apply weave_splice; [by apply report_full_lines|].
    rewrite take_drop.
    destruct (analyzed_fresh content f d) as (Hl & _). fold p1 in Hl.
    rewrite <- Hl at 1.
    apply weave_insert_shutdown_commands, block_full_lines.
Qed.

(** C7, amended: the script run a second time on the file a first run
    wrote shuts down again every tool the first run shut down and adds one
    more block for it: the standby search keys on the standby marker only,
    which the first run leaves in place, so the shutdown command of the
    tool, present once at least after the first run, is present twice at
    least after the second.  The file is taken to end with a line feed. *)
Theorem rerun_inserts_second_block text f d tool :
  let o1 := process set_iter timestamp1 (readlines text) (init f false) in
  let text1 := run_script set_iter timestamp1 false f text in
  let o2 := process set_iter timestamp2 (readlines text1) (init f d) in
  Forall (fun l => full_line l = true) (readlines text) ->
  all_chars no_break timestamp1 = true ->
  tool ∈ shutdown_inserted (final o1) ->
  readlines text1 = built o1
  /\ tool ∈ shutdown_inserted (final o2)
  /\ 1 <= occurrences (heater_off_line tool) (built o1)
  /\ occurrences (heater_off_line tool) (built o1) + 1
     <= occurrences (heater_off_line tool) (built o2).
Proof.
  intros o1 text1 o2 Hfull Hts Hshut.
  destruct (rerun_on_built_lines (readlines text) f d tool Hshut)
    as (Hsaved & Hshut2 & Hocc1 & Hocc2).
  fold o1 in Hsaved, Hshut2, Hocc1, Hocc2.
  assert (readlines text1 = built o1) as Hback.
  { subst text1. unfold run_script. fold o1. rewrite Hsaved.
    by apply built_read_back. }
  subst o2. rewrite Hback. by split_and!.
Qed.

End Rerun.

Lemma rerun_inserts_second_block_witness :
  let o1 := process elements "2026-01-01 10:00:00" (readlines one_tool_file)
              (init "print.gcode" false) in
  let text1 :=
    run_script elements "2026-01-01 10:00:00" false "print.gcode"
      one_tool_file in
  let o2 := process elements "2026-01-01 10:05:00" (readlines text1)
              (init "print.gcode" false) in
  (forall s : gset N, elements s ≡ₚ elements s)
  /\ Forall (fun l => full_line l = true) (readlines one_tool_file)
  /\ all_chars no_break "2026-01-01 10:00:00" = true
  /\ 0%N ∈ shutdown_inserted (final o1)
  /\ readlines text1 = built o1
  /\ 0%N ∈ shutdown_inserted (final o2)
  /\ 1 <= occurrences (heater_off_line 0) (built o1)
  /\ occurrences (heater_off_line 0) (built o1) + 1
     <= occurrences (heater_off_line 0) (built o2).
Proof.
  cbv zeta.
  assert (0%N ∈ shutdown_inserted
            (final (process elements "2026-01-01 10:00:00"
                      (readlines one_tool_file) (init "print.gcode" false))))
    as H by (vm_compute; reflexivity).
  assert (Forall (fun l => full_line l = true) (readlines one_tool_file))
    as Hfull by (vm_compute; repeat constructor).
  split; [intros s; reflexivity|]. split; [exact Hfull|].
  split; [reflexivity|]. split; [exact H|].
  exact (rerun_inserts_second_block elements (fun s => reflexivity _)
           "2026-01-01 10:00:00" "2026-01-01 10:05:00"
           one_tool_file "print.gcode" false 0%N Hfull eq_refl H).
Defined.

(** C7, as stated: the script run on [one_tool_file] and then again on the
    file it wrote leaves two shutdown blocks for tool 0 behind the standby
    line: the second run finds the standby marker again and puts a new block
    between it and the block of the first run. *)
Lemma rerun_duplicates_block :
  let text1 :=
    run_script elements "2026-01-01 10:00:00" false "print.gcode"
      one_tool_file in
  let text2 :=
    run_script elements "2026-01-01 10:05:00" false "print.gcode" text1 in
  occurrences (heater_off_line 0) (readlines one_tool_file) = 0
  /\ occurrences (heater_off_line 0) (readlines text1) = 1
  /\ occurrences (heater_off_line 0) (readlines text2) = 2
  /\ drop 50 (readlines text2)
     = ["M104 S100 T0" +:+ nl]
       ++ generate_shutdown_commands default_config 0
       ++ generate_shutdown_commands default_config 0.
Proof. vm_compute. split_and!; reflexivity. Qed.

(** ** The analyzer along the file *)

(** What holds of the state before the loop and is kept by every turn holds
    after the loop, the lines read so far being [pre]. *)
Lemma analyze_from_invariant (I : list string -> Locals * Processor -> Prop) :
  (forall pre raw st,
      I pre st -> I (pre ++ [raw]) (analyze_line (length pre) raw st)) ->
  forall ls pre st,
    I pre st -> I (pre ++ ls) (analyze_from (length pre) ls st).
Proof.
  intros Hstep. induction ls as [|raw ls IH]; intros pre st H.
  - by rewrite app_nil_r.
  - cbn [analyze_from]. rewrite cons_middle, app_assoc.
    replace (S (length pre)) with (length (pre ++ [raw]))
      by (rewrite length_app; cbn; lia).
    apply IH, Hstep, H.
Qed.

Lemma analyze_from_fresh_invariant
    (I : list string -> Locals * Processor -> Prop) content p :
  I [] (init_locals, p) ->
  (forall pre raw st,
      I pre st -> I (pre ++ [raw]) (analyze_line (length pre) raw st)) ->
  I content (analyze_from 0 content (init_locals, p)).
Proof.
  intros H0 Hstep.
  exact (analyze_from_invariant I Hstep content [] _ H0).
Qed.

(** A tool selection counts a change at most for the tool selected, and
    only outside the start region, after the first selection there, and
    when the tool selected before was another one. *)
Lemma select_tool_count id loc p t :
  let st := select_tool id (loc, p) in
  previous_tool (fst st) = Some id
  /\ in_start_gcode (fst st) = in_start_gcode loc
  /\ change_count (snd st) t =
     if negb (in_start_gcode loc) && negb (first_tool_after_start loc)
        && match previous_tool loc with
           | Some prev => negb (N.eqb prev id)
           | None => false
           end
     then (if decide (t = id) then change_count p t + 1 else change_count p t)
     else change_count p t.
Proof.
  unfold select_tool. destruct loc as [prev start first]. cbn.
  destruct start; cbn; [by split_and!|].
  destruct first; cbn; [by split_and!|].
  destruct prev as [prev|]; cbn; [|by split_and!].
  destruct (negb (N.eqb prev id)); cbn; [|by split_and!].
  split_and!; try done.
  change (change_count (count_change id p) t =
          if decide (t = id) then change_count p t + 1 else change_count p t).
  apply change_count_count.
Qed.

Lemma track_extrusion_changes n v p t :
  change_count (track_extrusion n v p) t = change_count p t.
Proof.
  destruct (track_extrusion_frame n v p) as (_ & Hc & _).
  unfold change_count. by rewrite Hc.
Qed.

(** X1: in a file without a layer marker the whole file is start region,
    and no tool selection in it is counted as a tool change: after the
    analysis of the freshly loaded file every change count is 0. *)
Theorem start_region_counts_no_change content f d :
  Forall (fun raw => is_layer_marker raw = false) content ->
  forall t,
    change_count (analyze_tool_usage (set_lines content (init f d))) t = 0.
Proof.
  intros Hno t. unfold analyze_tool_usage.
  destruct (print_summary_frame
              (snd (analyze_from 0 (lines (set_lines content (init f d)))
                      (init_locals, set_lines content (init f d)))))
    as (_ & _ & _ & _ & _ & _ & _ & _ & _ & -> & _).
  cbn [lines set_lines].
  pose (I := fun (pre : list string) (st : Locals * Processor) =>
    Forall (fun raw => is_layer_marker raw = false) pre ->
    in_start_gcode (fst st) = true /\ forall t, change_count (snd st) t = 0).
  assert (I content (analyze_from 0 content
                       (init_locals, set_lines content (init f d)))) as H.
  { apply analyze_from_fresh_invariant; [done|].
    intros pre raw [loc p] IH Hpre.
    apply Forall_app in Hpre as [Hpre Hraw].
    apply Forall_cons in Hraw as [Hraw _].
    destruct (IH Hpre) as [Hstart Hzero]. cbn [fst snd] in *.
    rewrite analyze_line_classify, Hraw. cbv zeta.
    destruct (classify raw) as [m|v|id|v|]; cbn [fst snd]; try (by split).
    - destruct (select_tool_count id loc p 0) as (_ & -> & _).
      split; [done|]. intros t'.
      destruct (select_tool_count id loc p t') as (_ & _ & ->).
      rewrite Hstart. apply Hzero.
    - split; [done|]. intros t'. rewrite track_extrusion_changes. apply Hzero. }
  by apply H.
Qed.

Lemma start_region_counts_no_change_witness :
  let content := ["T0"; "G1 X1 E1"; "T1"; "G1 X2 E2"; "T0"; "G1 X3 E3"] in
  Forall (fun raw => is_layer_marker raw = false) content
  /\ forall t,
      change_count
        (analyze_tool_usage (set_lines content (init "print.gcode" false))) t
      = 0.
Proof.
  cbv zeta.
  assert (Forall (fun raw => is_layer_marker raw = false)
            ["T0"; "G1 X1 E1"; "T1"; "G1 X2 E2"; "T0"; "G1 X3 E3"]) as Hno
    by (repeat constructor).
  split; [exact Hno|].
  exact (start_region_counts_no_change _ "print.gcode" false Hno).
Defined.

(** The summary leaves the analysis as the loop made it, up to dictionary
    keys entered by reads. *)
Lemma analyzed_reads content f d :
  let p0 := set_lines content (init f d) in
  let p := analyze_tool_usage p0 in
  let q := snd (analyze_from 0 content (init_locals, p0)) in
  total_tools p = total_tools q /\ current_tool p = current_tool q
  /\ (forall t, change_count p t = change_count q t)
  /\ (forall t, usage_list p t = usage_list q t).
Proof.
  cbv zeta. unfold analyze_tool_usage. cbn [lines set_lines].
  destruct (print_summary_frame
              (snd (analyze_from 0 content
                      (init_locals, set_lines content (init f d)))))
    as (_ & _ & _ & Ht & Hc & _ & _ & _ & _ & Hch & Hu).
  by split_and!.
Qed.

(** X2: a file whose tool selections all select the same tool has no tool
    change: selecting again the tool selected before is never counted. *)
Theorem one_tool_counts_no_change content f d id :
  Forall (fun raw => forall id', classify raw = ToolSelect id' -> id' = id)
    content ->
  forall t,
    change_count (analyze_tool_usage (set_lines content (init f d))) t = 0.
Proof.
  intros Hone t.
  destruct (analyzed_reads content f d) as (_ & _ & -> & _).
  pose (I := fun (pre : list string) (st : Locals * Processor) =>
    Forall (fun raw => forall id', classify raw = ToolSelect id' -> id' = id)
      pre ->
    (previous_tool (fst st) = None \/ previous_tool (fst st) = Some id)
    /\ forall t, change_count (snd st) t = 0).
  assert (I content (analyze_from 0 content
                       (init_locals, set_lines content (init f d)))) as H.
  { apply analyze_from_fresh_invariant; [by split; [left|]|].
    intros pre raw [loc p] IH Hpre.
    apply Forall_app in Hpre as [Hpre Hraw].
    apply Forall_cons in Hraw as [Hraw _].
    destruct (IH Hpre) as [Hprev Hzero]. cbn [fst snd] in *.
    rewrite analyze_line_classify. cbv zeta.
    set (loc' := if is_layer_marker raw then _ else loc).
    assert (previous_tool loc' = previous_tool loc) as Hloc'
      by (subst loc'; by destruct (is_layer_marker raw)).
    destruct (classify raw) as [m|v|id'|v|]; cbn [fst snd];
      rewrite ?Hloc'; try (by split).
    - rewrite (Hraw id' eq_refl).
      destruct (select_tool_count id loc' p 0) as (-> & _ & _).
      split; [by right|]. intros t'.
      destruct (select_tool_count id loc' p t') as (_ & _ & ->).
      rewrite Hloc'.
      destruct Hprev as [-> | ->]; rewrite ?N.eqb_refl, ?andb_false_r;
        apply Hzero.
    - split; [done|]. intros t'. rewrite track_extrusion_changes.
      apply Hzero. }
  by apply H.
Qed.

Lemma one_tool_counts_no_change_witness :
  let content :=
    [";LAYER:1"; "T1"; "G1 X1 E1"; "T1"; "G1 X2 E2"; "  T1 ; again"] in
  Forall (fun raw => forall id', classify raw = ToolSelect id' -> id' = 1%N)
    content
  /\ forall t,
      change_count
        (analyze_tool_usage (set_lines content (init "print.gcode" false))) t
      = 0.
Proof.
  cbv zeta.
  assert (Forall
            (fun raw => forall id', classify raw = ToolSelect id' -> id' = 1%N)
            [";LAYER:1"; "T1"; "G1 X1 E1"; "T1"; "G1 X2 E2"; "  T1 ; again"])
    as Hone.
  { repeat (apply Forall_cons; split;
            [intros id' H; vm_compute in H; congruence|]).
    apply Forall_nil_2. }
  split; [exact Hone|].
  exact (one_tool_counts_no_change _ "print.gcode" false 1%N Hone).
Defined.

(** ** The number of tool changes *)

Lemma sum_values_insert_fresh (m : gmap N nat) k v :
  m !! k = None ->
  map_fold (fun _ n acc => n + acc) 0 (<[k := v]> m)
  = v + map_fold (fun _ n acc => n + acc) 0 m.
Proof.
  intros Hk. apply (map_fold_insert_L (fun _ n acc => n + acc)); [|done].
  intros. lia.
Qed.

Lemma sum_values_insert (m : gmap N nat) k v :
  map_fold (fun _ n acc => n + acc) 0 (<[k := v]> m) + default 0 (m !! k)
  = v + map_fold (fun _ n acc => n + acc) 0 m.
Proof.
  destruct (m !! k) as [n|] eqn:E; cbn.
  - rewrite <- (insert_delete_eq m k v).
    rewrite <- (insert_delete_id m k n E) at 2.
    rewrite !sum_values_insert_fresh by apply lookup_delete_eq. lia.
  - rewrite sum_values_insert_fresh by done. lia.
Qed.

Lemma total_tool_changes_count tool p :
  total_tool_changes (count_change tool p) = S (total_tool_changes p).
Proof.
  unfold total_tool_changes, count_change, dd_get.
  pose proof (sum_values_insert (tool_changes p) tool) as H.
  destruct (tool_changes p !! tool) as [n|] eqn:E; cbn in *.
  - specialize (H (n + 1)).
    set (a := map_fold _ _ (<[_:=_]> _)) in *.
    set (b := map_fold _ _ _) in *. lia.
  - rewrite insert_insert_eq. specialize (H (0 + 1)).
    set (a := map_fold _ _ (<[_:=_]> _)) in *.
    set (b := map_fold _ _ _) in *. lia.
Qed.

Lemma total_tool_changes_summary_line p tool :
  total_tool_changes (summary_line p tool) = total_tool_changes p.
Proof.
  unfold total_tool_changes, summary_line, dd_get. cbn.
  destruct (tool_changes p !! tool) as [n|] eqn:E; cbn; [done|].
  by rewrite sum_values_insert_fresh.
Qed.

Lemma total_tool_changes_summary p :
  total_tool_changes (print_summary p) = total_tool_changes p.
Proof.
  unfold print_summary. generalize (sorted_tools (total_tools p)).
  intros ts. revert p. induction ts as [|t ts IH]; intros p; [done|].
  cbn [foldl]. by rewrite IH, total_tool_changes_summary_line.
Qed.

Lemma total_tool_changes_select id loc p :
  total_tool_changes (snd (select_tool id (loc, p)))
  = if negb (in_start_gcode loc) && negb (first_tool_after_start loc)
       && match previous_tool loc with
          | Some prev => negb (N.eqb prev id)
          | None => false
          end
    then S (total_tool_changes p) else total_tool_changes p.
Proof.
  unfold select_tool. destruct loc as [prev start first]. cbn.
  destruct start; cbn; [done|]. destruct first; cbn; [done|].
  destruct prev as [prev|]; cbn; [|done].
  destruct (negb (N.eqb prev id)); cbn; [|done].
  apply total_tool_changes_count.
Qed.

Lemma total_tool_changes_track n v p :
  total_tool_changes (track_extrusion n v p) = total_tool_changes p.
Proof.
  destruct (track_extrusion_frame n v p) as (_ & Hc & _).
  unfold total_tool_changes. by rewrite Hc.
Qed.

Lemma length_filter_snoc {A} (P : A -> Prop) `{!forall x, Decision (P x)}
    (l : list A) x :
  length (filter P (l ++ [x]))
  = length (filter P l) + (if decide (P x) then 1 else 0).
Proof.
  rewrite filter_app, length_app. f_equal.
  rewrite filter_cons. by case_decide.
Qed.

(** X3: the number of tool changes the report shows, the sum of the change
    counts, is below the number of tool selection lines of the file (it is 0
    when there is none), since the first selection is never counted; and the
    change count of a tool is at most the number of lines that select it. *)
Theorem changes_below_selections content f d :
  let p := analyze_tool_usage (set_lines content (init f d)) in
  total_tool_changes p
  <= pred (length (filter (fun raw => is_selection raw = true) content))
  /\ forall t,
      change_count p t
      <= length (filter (fun raw => selects t raw = true) content).
Proof.
  cbv zeta.
  destruct (analyzed_reads content f d) as (_ & _ & Hch & _).
  unfold analyze_tool_usage at 1. rewrite total_tool_changes_summary.
  cbn [lines set_lines].
  pose (I := fun (pre : list string) (st : Locals * Processor) =>
    match previous_tool (fst st) with
    | None => total_tool_changes (snd st) = 0
    | Some prev =>
        total_tool_changes (snd st) + 1
        <= length (filter (fun raw => is_selection raw = true) pre)
    end
    /\ forall t,
        change_count (snd st) t
        <= length (filter (fun raw => selects t raw = true) pre)).
  assert (I content (analyze_from 0 content
                       (init_locals, set_lines content (init f d)))) as H.
  { apply analyze_from_fresh_invariant; [split; [done|intros t; unfold change_count; cbn; rewrite lookup_empty; cbn; lia]|].
    intros pre raw [loc p] [IH1 IH2]. unfold I in *. cbn [fst snd] in *.
    rewrite analyze_line_classify. cbv zeta.
    set (loc' := if is_layer_marker raw then _ else loc).
    assert (previous_tool loc' = previous_tool loc) as Hloc'
      by (subst loc'; by destruct (is_layer_marker raw)).
    assert (forall t,
      length (filter (fun raw => selects t raw = true) (pre ++ [raw]))
      = length (filter (fun raw => selects t raw = true) pre)
        + (if selects t raw then 1 else 0)) as Hselt.
    { intros t. rewrite length_filter_snoc.
      case_decide as E; by destruct (selects t raw). }
    assert (
      length (filter (fun raw => is_selection raw = true) (pre ++ [raw]))
      = length (filter (fun raw => is_selection raw = true) pre)
        + (if is_selection raw then 1 else 0)) as Hsel.
    { rewrite length_filter_snoc.
      case_decide as E; by destruct (is_selection raw). }
    setoid_rewrite Hselt. rewrite Hsel. clear Hselt Hsel.
    assert (is_selection raw
            = match classify raw with ToolSelect _ => true | _ => false end)
      as -> by done.
    assert (forall t, selects t raw
            = match classify raw with
              | ToolSelect id => N.eqb id t
              | _ => false
              end) as Hst by done.
    setoid_rewrite Hst. clear Hst.
    destruct (classify raw) as [m|v|id|v|]; cbn [fst snd]; rewrite ?Hloc';
      try (unfold total_tool_changes, change_count in *;
           cbn [tool_changes set_e_mode set_e_pos];
           split; [destruct (previous_tool loc); lia
                  |intros t; specialize (IH2 t); lia]).
    - destruct (select_tool_count id loc' p 0) as (-> & _ & _).
      rewrite total_tool_changes_select, Hloc'.
      split.
      + destruct (previous_tool loc) as [prev|];
          destruct (negb (in_start_gcode loc')),
            (negb (first_tool_after_start loc')); cbn;
          try destruct (negb (N.eqb prev id)); lia.
      + intros t.
        destruct (select_tool_count id loc' p t) as (_ & _ & ->).
        specialize (IH2 t).
        destruct (_ && _); destruct (N.eqb_spec id t);
          repeat case_decide; subst; try lia; congruence.
    - rewrite total_tool_changes_track.
      setoid_rewrite track_extrusion_changes.
      split; [destruct (previous_tool loc); lia
             |intros t; specialize (IH2 t); lia]. }
  unfold I in H. setoid_rewrite Hch. destruct H as [H1 H2].
  split; [|done]. destruct (previous_tool _); lia.
Qed.

(** ** What the usage lists and the set of tools hold *)

Lemma analyze_line_usage n raw loc p t :
  let p' := snd (analyze_line n raw (loc, p)) in
  usage_list p' t = usage_list p t
  \/ (exists v, classify raw = MoveWithExtrusion v)
     /\ usage_list p' t = usage_list p t ++ [n].
Proof.
  rewrite analyze_line_classify. cbv zeta.
  destruct (classify raw) as [m|v|id|v|]; cbn [snd]; try (by left).
  - left. destruct (select_tool_effect id
      (if is_layer_marker raw
       then mkLocals (previous_tool loc) false (first_tool_after_start loc)
       else loc) p) as (_ & _ & _ & _ & _ & Hu & _).
    unfold usage_list. by rewrite Hu.
  - rewrite track_extrusion_usage.
    destruct (exceeds_tolerance p v); [|by left].
    case_decide; [right; eauto|by left].
Qed.

(** After the loop every usage list is strictly increasing and holds
    indices of lines that are moves with extrusion. *)
Lemma usage_lists_loop content f d :
  let q := snd (analyze_from 0 content
                  (init_locals, set_lines content (init f d))) in
  forall t,
    StronglySorted lt (usage_list q t)
    /\ forall k,
        k ∈ usage_list q t ->
        exists raw v,
          content !! k = Some raw /\ classify raw = MoveWithExtrusion v.
Proof.
  cbv zeta.
  pose (I := fun (pre : list string) (st : Locals * Processor) =>
    forall t,
      StronglySorted lt (usage_list (snd st) t)
      /\ forall k,
          k ∈ usage_list (snd st) t ->
          k < length pre
          /\ exists raw v,
              pre !! k = Some raw /\ classify raw = MoveWithExtrusion v).
  assert (I content (analyze_from 0 content
                       (init_locals, set_lines content (init f d)))) as H.
  { apply analyze_from_fresh_invariant.
    - intros t'. split; [constructor|]. intros k Hk. by apply elem_of_nil in Hk.
    - intros pre raw [loc p] IH t'. cbn [fst snd] in *.
      destruct (IH t') as [Hs Hk]. rewrite length_app. cbn [length].
      destruct (analyze_line_usage (length pre) raw loc p t')
        as [-> | [[v Hv] ->]].
      + split; [done|]. intros k Hin.
        destruct (Hk k Hin) as (Hlt & r & w & Hr & Hw).
        split; [lia|]. exists r, w. split; [|done]. by apply lookup_app_l_Some.
      + split.
        * apply StronglySorted_app_2; [|done|repeat constructor].
          intros x1 x2 H1 ->%list_elem_of_singleton. by apply Hk.
        * intros k [Hin | ->%list_elem_of_singleton]%elem_of_app.
          -- destruct (Hk k Hin) as (Hlt & r & w & Hr & Hw).
             split; [lia|]. exists r, w. split; [|done].
             by apply lookup_app_l_Some.
          -- split; [lia|]. exists raw, v. split; [|done].
             by rewrite lookup_app_r, Nat.sub_diag. }
  intros t. destruct (H t) as [Hs Hk]. split; [done|].
  intros k Hin. by apply Hk.
Qed.

(** X4: after the analysis of a freshly loaded file every usage list is
    strictly increasing, each of its entries is the index of a line of the
    file that is a move with extrusion, its tool is a known tool, and no
    index stands in the lists of two tools. *)
Theorem usage_lists_hold_extrusion_moves content f d :
  let p := analyze_tool_usage (set_lines content (init f d)) in
  forall t,
    StronglySorted lt (usage_list p t)
    /\ forall k,
        k ∈ usage_list p t ->
        t ∈ total_tools p
        /\ (exists raw v,
              content !! k = Some raw /\ classify raw = MoveWithExtrusion v)
        /\ forall t', k ∈ usage_list p t' -> t' = t.
Proof.
  cbv zeta. intros t.
  destruct (usage_inv_analyzed content f d) as (Hknown & _ & Hdisj).
  destruct (analyzed_reads content f d) as (_ & _ & _ & Hu).
  destruct (usage_lists_loop content f d t) as [Hs Hk].
  rewrite Hu. split; [done|]. intros k Hin. split_and!.
  - apply Hknown. rewrite Hu. intros E. rewrite E in Hin.
    by apply elem_of_nil in Hin.
  - by apply Hk.
  - intros t' Hin'. rewrite <- Hu in Hin. eauto.
Qed.

(** The tools the lines [pre] select. *)
Lemma selected_snoc pre raw (t : N) :
  (exists r, r ∈ pre ++ [raw] /\ classify r = ToolSelect t)
  <-> (exists r, r ∈ pre /\ classify r = ToolSelect t)
      \/ classify raw = ToolSelect t.
Proof.
  split.
  - intros (r & [Hin | ->%list_elem_of_singleton]%elem_of_app & Hr); eauto.
  - intros [(r & Hin & Hr) | Hr].
    + exists r. split; [|done]. apply elem_of_app. by left.
    + exists raw. split; [|done]. apply elem_of_app. right.
      by apply list_elem_of_singleton.
Qed.

(** After the loop the known tools are the tools selected and the tools
    with usage, and a tool with usage that was never selected is tool 0. *)
Lemma known_tools_loop content f d :
  let p := snd (analyze_from 0 content
                  (init_locals, set_lines content (init f d))) in
  forall t,
    (t ∈ total_tools p
     <-> (exists raw, raw ∈ content /\ classify raw = ToolSelect t)
         \/ usage_list p t <> [])
    /\ (usage_list p t <> [] ->
        t = 0%N \/ exists raw, raw ∈ content /\ classify raw = ToolSelect t).
Proof.
  cbv zeta.
  pose (sel := fun (pre : list string) (t : N) =>
    exists raw, raw ∈ pre /\ classify raw = ToolSelect t).
  pose (I := fun (pre : list string) (st : Locals * Processor) =>
    (forall t, t ∈ total_tools (snd st)
               <-> sel pre t \/ usage_list (snd st) t <> [])
    /\ (current_tool (snd st) = 0%N \/ sel pre (current_tool (snd st)))
    /\ (forall t, usage_list (snd st) t <> [] -> t = 0%N \/ sel pre t)).
  assert (I content (analyze_from 0 content
                       (init_locals, set_lines content (init f d)))) as H.
  { apply analyze_from_fresh_invariant.
    - split_and!; [|by left|done]. intros t. split; [set_solver|].
      intros [(raw & Hin & _) | Hu]; [by apply elem_of_nil in Hin|done].
    - intros pre raw [loc p] (Hk & Hc & Hu). unfold I, sel in *.
      cbn [fst snd] in *. setoid_rewrite selected_snoc.
      rewrite analyze_line_classify. cbv zeta.
      set (loc' := if is_layer_marker raw then _ else loc).
      destruct (classify raw) as [m|v|id|v|] eqn:Ecl; cbn [snd].
      + split_and!; [intros t; rewrite (Hk t)|..]; naive_solver.
      + split_and!; [intros t; rewrite (Hk t)|..]; naive_solver.
      + destruct (select_tool_effect id loc' p)
          as (_ & _ & _ & _ & _ & Htu & -> & -> & _).
        assert (forall t, usage_list (select_tool id (loc', p)).2 t
                          = usage_list p t) as Hul
          by (intros t; unfold usage_list; by rewrite Htu).
        setoid_rewrite Hul. split_and!.
        * intros t. rewrite elem_of_union, elem_of_singleton, (Hk t).
          naive_solver.
        * by right; right.
        * intros t Ht. destruct (Hu t Ht); naive_solver.
      + destruct (track_extrusion_frame (length pre) v p)
          as (_ & _ & -> & _).
        rewrite track_extrusion_tools.
        setoid_rewrite track_extrusion_usage.
        destruct (exceeds_tolerance p v).
        * split_and!.
          -- intros t. rewrite elem_of_union, elem_of_singleton, (Hk t).
             case_decide as E.
             ++ split; [|by left]. intros _. right.
                intros E'. by apply app_eq_nil in E' as [_ ?].
             ++ naive_solver.
          -- naive_solver.
          -- intros t Ht. case_decide as E; [subst|]; naive_solver.
        * split_and!; [intros t; rewrite (Hk t)|..]; naive_solver.
      + split_and!; [intros t; rewrite (Hk t)|..]; naive_solver. }
  destruct H as (Hk & _ & Hused). intros t. split; [apply Hk|apply Hused].
Qed.

(** X5: after the analysis of a freshly loaded file the known tools are
    the tools some line selects and the tools with a recorded extrusion; a
    tool with a recorded extrusion that no line selects is tool 0, the tool
    current at the start. *)
Theorem known_tools_are_selected_or_used content f d :
  let p := analyze_tool_usage (set_lines content (init f d)) in
  forall t,
    (t ∈ total_tools p
     <-> (exists raw, raw ∈ content /\ classify raw = ToolSelect t)
         \/ usage_list p t <> [])
    /\ (usage_list p t <> [] ->
        t = 0%N \/ exists raw, raw ∈ content /\ classify raw = ToolSelect t).
Proof.
  cbv zeta. intros t.
  destruct (analyzed_reads content f d) as (-> & _ & _ & Hu). rewrite Hu.
  apply known_tools_loop.
Qed.


(** ** Lines the analysis passes over *)

(** The local variables and the change counts after a line depend on the
    local variables and the change counts before it only. *)
Lemma analyze_line_counts n m raw loc p q :
  tool_changes p = tool_changes q ->
  fst (analyze_line n raw (loc, p)) = fst (analyze_line m raw (loc, q))
  /\ tool_changes (snd (analyze_line n raw (loc, p)))
     = tool_changes (snd (analyze_line m raw (loc, q))).
Proof.
  intros H. rewrite !analyze_line_classify. cbv zeta.
  set (loc' := if is_layer_marker raw then _ else loc).
  destruct (classify raw) as [mode|v|id|v|]; cbn [fst snd]; try done.
  - unfold select_tool. destruct loc' as [prev start first]. cbn.
    destruct start; cbn; [done|]. destruct first; cbn; [done|].
    destruct prev as [prev|]; cbn; [|done].
    destruct (negb (N.eqb prev id)); cbn; [|done].
    unfold count_change. rewrite H.
    by destruct (dd_get 0 id (tool_changes q)).
  - destruct (track_extrusion_frame n v p) as (_ & -> & _).
    by destruct (track_extrusion_frame m v q) as (_ & -> & _).
Qed.

Lemma analyze_from_counts l l' :
  weave (fun raw => inert raw /\ is_layer_marker raw = false) l l' ->
  forall n m loc p q,
    tool_changes p = tool_changes q ->
    tool_changes (snd (analyze_from n l (loc, p)))
    = tool_changes (snd (analyze_from m l' (loc, q))).
Proof.
  induction 1 as [|x l l' Hw IH|x l l' [Hx Hm] Hw IH]; intros n m loc p q H.
  - done.
  - cbn [analyze_from].
    destruct (analyze_line_counts n m x loc p q H) as [Hloc Hc].
    destruct (analyze_line n x (loc, p)) as [loc1 p1].
    destruct (analyze_line m x (loc, q)) as [loc1' q1].
    cbn [fst snd] in *. subst loc1'. by apply IH.
  - cbn [analyze_from]. rewrite analyze_line_classify, Hm, Hx. cbv zeta.
    by apply IH.
Qed.

Lemma weave_impl (P Q : string -> Prop) l l' :
  (forall x, P x -> Q x) -> weave P l l' -> weave Q l l'.
Proof. intros HPQ. induction 1; constructor; auto. Qed.

(** X6: lines the analyzer passes over (comments, blank lines, commands it
    does not track) can be put anywhere into a file without changing the
    known tools, the current tool, the extrusion mode and position at the
    end, and the number of extrusions recorded for each tool; when none of
    the lines put in is a layer marker the change counts stay as well. *)
Theorem analysis_passes_over_inert_lines content content' f d f' d' :
  weave inert content content' ->
  let p := analyze_tool_usage (set_lines content (init f d)) in
  let p' := analyze_tool_usage (set_lines content' (init f' d')) in
  total_tools p' = total_tools p /\ current_tool p' = current_tool p
  /\ e_mode p' = e_mode p /\ e_pos p' = e_pos p
  /\ (forall t, length (usage_list p' t) = length (usage_list p t))
  /\ (weave (fun raw => inert raw /\ is_layer_marker raw = false)
        content content' ->
      forall t, change_count p' t = change_count p t).
Proof.
  intros Hw p p'.
  destruct (usage_sim_analyzed content content' f d f' d' Hw)
    as (Hm & Hp & Hc & Ht & Hu).
  split_and!; try done.
  intros Hw' t. subst p p'.
  destruct (analyzed_reads content f d) as (_ & _ & -> & _).
  destruct (analyzed_reads content' f' d') as (_ & _ & -> & _).
  unfold change_count. f_equal. f_equal. symmetry.
  by apply analyze_from_counts.
Qed.

Lemma analysis_passes_over_inert_lines_witness :
  let content := ["T0"; "G1 X1 E1"; ";LAYER:1"; "T1"; "G1 X2 E2"] in
  let content' :=
    ["; a note"; "T0"; ""; "G1 X1 E1"; ";LAYER:1"; "M104 S0 T0"; "T1";
     "G1 X2 E2"] in
  let p := analyze_tool_usage (set_lines content (init "a.gcode" false)) in
  let p' := analyze_tool_usage (set_lines content' (init "b.gcode" true)) in
  weave inert content content'
  /\ weave (fun raw => inert raw /\ is_layer_marker raw = false)
       content content'
  /\ total_tools p' = total_tools p
  /\ (forall t, length (usage_list p' t) = length (usage_list p t))
  /\ (forall t, change_count p' t = change_count p t).
Proof.
  cbv zeta.
  assert (weave (fun raw => inert raw /\ is_layer_marker raw = false)
            ["T0"; "G1 X1 E1"; ";LAYER:1"; "T1"; "G1 X2 E2"]
            ["; a note"; "T0"; ""; "G1 X1 E1"; ";LAYER:1"; "M104 S0 T0"; "T1";
             "G1 X2 E2"]) as Hw'.
  { apply weave_add; [split; reflexivity|]. apply weave_keep.
    apply weave_add; [split; reflexivity|]. apply weave_keep.
    apply weave_keep.
    apply weave_add; [split; reflexivity|]. apply weave_refl. }
  assert (weave inert ["T0"; "G1 X1 E1"; ";LAYER:1"; "T1"; "G1 X2 E2"]
            ["; a note"; "T0"; ""; "G1 X1 E1"; ";LAYER:1"; "M104 S0 T0"; "T1";
             "G1 X2 E2"]) as Hw.
  { eapply weave_impl; [|exact Hw']. by intros x [Hx _]. }
  split; [exact Hw|]. split; [exact Hw'|].
  destruct (analysis_passes_over_inert_lines _ _ "a.gcode" false
              "b.gcode" true Hw) as (Ht & _ & _ & _ & Hu & Hc).
  split; [exact Ht|]. split; [exact Hu|exact (Hc Hw')].
Defined.

(** ** The insertion point *)

(** X7: [find_safe_insertion_point] returns what
    [find_last_standby_command] returns, whatever [last_usage_line] is: an
    index found lies between 1 and the number of lines, so the test
    [if insert_after_standby:] never drops it; the line before it holds the
    standby marker and no line from it on does; [None] is returned exactly
    when no line holds the marker. *)
Theorem insertion_point_follows_a_standby_line p last_usage_line tool :
  find_safe_insertion_point p last_usage_line tool
  = find_last_standby_command p tool
  /\ (forall r,
        find_last_standby_command p tool = Some r ->
        1 <= r <= length (lines p)
        /\ standby_at (lines p) tool (r - 1) = true
        /\ forall j, r <= j -> standby_at (lines p) tool j = false)
  /\ (find_last_standby_command p tool = None <->
      forall raw,
        raw ∈ lines p -> contains (standby_marker tool) (strip raw) = false).
Proof.
  pose proof (find_last_standby_command_spec p tool) as H.
  unfold find_safe_insertion_point.
  destruct (find_last_standby_command p tool) as [r|].
  - destruct H as (k & -> & Hk & Hmax).
    pose proof (standby_at_lt _ _ _ Hk) as Hlt.
    replace (k + 1) with (S k) by lia. cbn [Nat.eqb].
    split_and!; [done| |].
    + intros r [= <-]. replace (S k - 1) with k by lia.
      split_and!; [lia|lia|done|].
      intros j Hj. destruct (standby_at (lines p) tool j) eqn:E; [|done].
      apply Hmax in E. lia.
    + split; [done|]. intros Hno. exfalso. unfold standby_at in Hk.
      destruct (lines p !! k) as [raw|] eqn:E; [|done].
      apply list_elem_of_lookup_2 in E. by rewrite (Hno raw E) in Hk.
  - split_and!; [done|done|]. split; [|done]. intros _ raw Hin.
    apply list_elem_of_lookup_1 in Hin as [k Hk].
    specialize (H k). unfold standby_at in H. by rewrite Hk in H.
Qed.

(** ** A block put into the lines *)

(** X8: inserting the commands in reverse at one index within the lines
    puts the block there in its own order: the lines before the index stay
    where they are, the block follows, and every line from the index on
    moves down by the length of the block. *)
Theorem insert_block_shifts_later_lines i cmds out :
  i <= length out ->
  length (insert_block i cmds out) = length out + length cmds
  /\ (forall k, k < i -> insert_block i cmds out !! k = out !! k)
  /\ (forall j,
        j < length cmds -> insert_block i cmds out !! (i + j) = cmds !! j)
  /\ (forall k,
        i <= k -> insert_block i cmds out !! (k + length cmds) = out !! k).
Proof.
  intros Hi. rewrite (insert_block_spec i cmds out Hi).
  assert (length (take i out) = i) as Hlen by (rewrite length_take; lia).
  split_and!.
  - rewrite !length_app, length_take, length_drop. lia.
  - intros k Hk. rewrite lookup_app_l by lia. by apply lookup_take_lt.
  - intros j Hj. rewrite lookup_app_r by lia.
    rewrite Hlen, lookup_app_l by lia. f_equal. lia.
  - intros k Hk. rewrite lookup_app_r by lia.
    rewrite Hlen, lookup_app_r by lia. rewrite lookup_drop. f_equal. lia.
Qed.

Lemma insert_block_shifts_later_lines_witness :
  let out := ["a"; "b"; "c"] in
  let cmds := ["x"; "y"] in
  1 <= length out
  /\ insert_block 1 cmds out = ["a"; "x"; "y"; "b"; "c"]
  /\ length (insert_block 1 cmds out) = length out + length cmds
  /\ (forall k, 1 <= k -> insert_block 1 cmds out !! (k + length cmds) = out !! k).
Proof.
  cbv zeta.
  assert (1 <= length ["a"; "b"; "c"]) as H by (cbn; lia).
  split; [exact H|]. split; [reflexivity|].
  destruct (insert_block_shifts_later_lines 1 ["x"; "y"] ["a"; "b"; "c"] H)
    as (Hl & _ & _ & Hs).
  split; [exact Hl|exact Hs].
Defined.

(** ** Where the blocks land when the insertion points descend *)








(** ** Where the report lands *)

Lemma report_position_none out idx :
  Forall (fun line => report_anchor line = false) out ->
  report_position idx out = 0.
Proof.
  intros H. revert idx. induction H as [|line out Hline _ IH]; intros idx.
  - done.
  - cbn [report_position]. unfold report_anchor in Hline. by rewrite Hline.
Qed.

Lemma report_position_first pre line post idx :
  Forall (fun line => report_anchor line = false) pre ->
  report_anchor line = true ->
  report_position idx (pre ++ line :: post)
  = if contains ";LAYER:0" line then idx + length pre
    else idx + length pre + 1.
Proof.
  intros Hpre Hline. revert idx.
  induction Hpre as [|x pre Hx _ IH]; intros idx.
  - cbn [app report_position length]. unfold report_anchor in Hline.
    rewrite Hline. destruct (contains ";LAYER:0" line); lia.
  - cbn [app report_position length]. unfold report_anchor in Hx.
    rewrite Hx, IH. destruct (contains ";LAYER:0" line); lia.
Qed.

(** X10: [insert_report] puts the report in one piece: at the top when no
    line holds [;LAYER:0] or [thumbnail end]; otherwise at the first such
    line, before it when it holds [;LAYER:0] and behind it when not.  The
    other lines keep their order. *)
Theorem report_lands_at_first_anchor timestamp out p :
  let report := fst (generate_report timestamp p) in
  (Forall (fun line => report_anchor line = false) out ->
   fst (insert_report timestamp out p) = report ++ out)
  /\ (forall pre line post,
        out = pre ++ line :: post ->
        Forall (fun line => report_anchor line = false) pre ->
        report_anchor line = true ->
        fst (insert_report timestamp out p)
        = if contains ";LAYER:0" line
          then pre ++ report ++ line :: post
          else pre ++ line :: report ++ post).
Proof.
  cbv zeta. unfold insert_report.
  destruct (generate_report timestamp p) as [report p'] eqn:E. cbn [fst].
  split.
  - intros Hno. rewrite (report_position_none out 0 Hno).
    by rewrite insert_block_spec by lia.
  - intros pre line post -> Hpre Hline.
    rewrite (report_position_first pre line post 0 Hpre Hline).
    destruct (contains ";LAYER:0" line).
    + rewrite insert_block_spec by (rewrite length_app; lia).
      cbn [Nat.add]. rewrite take_app_length, drop_app_length. done.
    + rewrite insert_block_spec by (rewrite length_app; cbn; lia).
      replace (0 + length pre + 1) with (length (pre ++ [line]))
        by (rewrite length_app; cbn; lia).
      rewrite (cons_middle line pre post), !(app_assoc pre [line] post).
      rewrite take_app_length, drop_app_length.
      by rewrite <- !app_assoc.
Qed.

Lemma report_lands_at_first_anchor_witness :
  let p := analyze_tool_usage (loaded (readlines relay_file)) in
  let report := fst (generate_report "2026-01-01 10:00:00" p) in
  let pre := ["; generated by OrcaSlicer"; "; THUMBNAIL_BLOCK_START"] in
  Forall (fun line => report_anchor line = false) pre
  /\ report_anchor "; thumbnail end" = true
  /\ report_anchor ";LAYER:0" = true
  /\ fst (insert_report "2026-01-01 10:00:00"
            (pre ++ "; thumbnail end" :: ["G28"; ";LAYER:0"]) p)
     = pre ++ "; thumbnail end" :: report ++ ["G28"; ";LAYER:0"]
  /\ fst (insert_report "2026-01-01 10:00:00"
            (pre ++ ";LAYER:0" :: ["G1 X1 E1"]) p)
     = pre ++ report ++ ";LAYER:0" :: ["G1 X1 E1"].
Proof.
  cbv zeta.
  assert (Forall (fun line => report_anchor line = false)
            ["; generated by OrcaSlicer"; "; THUMBNAIL_BLOCK_START"]) as Hpre
    by (repeat constructor).
  split; [exact Hpre|]. split; [reflexivity|]. split; [reflexivity|].
  split.
  - exact (proj2 (report_lands_at_first_anchor "2026-01-01 10:00:00" _ _)
             _ "; thumbnail end" ["G28"; ";LAYER:0"] eq_refl Hpre eq_refl).
  - exact (proj2 (report_lands_at_first_anchor "2026-01-01 10:00:00" _ _)
             _ ";LAYER:0" ["G1 X1 E1"] eq_refl Hpre eq_refl).
Defined.

(** ** The lines the script adds *)

Lemma all_chars_impl (f g : ascii -> bool) s :
  (forall c, f c = true -> g c = true) ->
  all_chars f s = true -> all_chars g s = true.
Proof.
  intros Hfg. induction s as [|c r IH]; [done|]. cbn.
  intros [Hc Hr]%andb_prop. by rewrite (Hfg c Hc), (IH Hr).
Qed.

Lemma isdigit_not_M c : isdigit c = true -> not_M c = true.
Proof. destruct c as [[] [] [] [] [] [] [] []]; by vm_compute. Qed.

Lemma stamp_char_not_M c : stamp_char c = true -> not_M c = true.
Proof. destruct c as [[] [] [] [] [] [] [] []]; by vm_compute. Qed.

Lemma stamp_char_no_break c : stamp_char c = true -> no_break c = true.
Proof. destruct c as [[] [] [] [] [] [] [] []]; by vm_compute. Qed.

Lemma str_N_not_M n : all_chars not_M (str_N n) = true.
Proof. apply (all_chars_impl isdigit); [apply isdigit_not_M|apply str_N_digits]. Qed.

Lemma contains_lstrip_inv q s :
  contains q (lstrip s) = true -> contains q s = true.
Proof.
  induction s as [|c r IH]; [done|]. cbn [lstrip].
  destruct (isspace c); [|done]. intros H. by apply contains_cons, IH.
Qed.

Lemma startswith_rstrip_inv q s :
  startswith q (rstrip s) = true -> startswith q s = true.
Proof.
  revert q. induction s as [|c r IH]; intros q; [done|].
  destruct q as [|a q]; [done|]. cbn [rstrip].
  destruct (rstrip r) as [|c' r'] eqn:E.
  - destruct (isspace c); [done|]. cbn.
    intros [-> Hq]%andb_prop. destruct q; [done|discriminate].
  - cbn [startswith]. intros [-> Hq]%andb_prop. cbn. by apply IH.
Qed.

Lemma contains_nil_iff q : contains q EmptyString = true -> q = EmptyString.
Proof. destruct q; [done|]. cbn. discriminate. Qed.

Lemma contains_empty s : contains EmptyString s = true.
Proof. by destruct s. Qed.

Lemma contains_rstrip_inv q s :
  contains q (rstrip s) = true -> contains q s = true.
Proof.
  induction s as [|c r IH]; [done|]. intros H.
  pose proof (startswith_rstrip_inv q (String c r)) as Hs.
  cbn [rstrip] in H, Hs.
  destruct (rstrip r) as [|c' r'] eqn:E.
  - destruct (isspace c).
    + apply contains_nil_iff in H as ->. apply contains_empty.
    + cbn [contains] in H. apply orb_prop in H as [H|H].
      * by apply contains_here, Hs.
      * rewrite orb_false_r in H.
        destruct q; [apply contains_empty|discriminate].
  - cbn [contains] in H. apply orb_prop in H as [H|H].
    + by apply contains_here, Hs.
    + by apply contains_cons, IH.
Qed.

Lemma contains_strip_inv q s :
  contains q (strip s) = true -> contains q s = true.
Proof.
  intros H. by apply contains_lstrip_inv, contains_rstrip_inv.
Qed.

Lemma startswith_prefix a b s :
  startswith (a +:+ b) s = true -> startswith a s = true.
Proof.
  revert s. induction a as [|c a IH]; intros s; [done|].
  rewrite append_cons. destruct s as [|c' s]; [done|]. cbn.
  intros [-> H]%andb_prop. cbn. by apply IH.
Qed.

Lemma contains_prefix a b s :
  contains (a +:+ b) s = true -> contains a s = true.
Proof.
  induction s as [|c s IH]; cbn [contains].
  - rewrite !orb_false_r. apply startswith_prefix.
  - intros [H|H]%orb_prop.
    + by rewrite (startswith_prefix a b _ H).
    + rewrite (IH H). apply orb_true_r.
Qed.

Lemma not_M_contains q s :
  all_chars not_M s = true -> contains (String "M" q) s = false.
Proof.
  induction s as [|c s IH]; [done|]. cbn [all_chars contains startswith].
  intros [Hc Hs]%andb_prop. rewrite (IH Hs), orb_false_r.
  unfold not_M in Hc. apply negb_true_iff in Hc.
  by rewrite Ascii.eqb_sym, Hc.
Qed.

Lemma contains_M_head q rest :
  all_chars not_M rest = true ->
  startswith (String "M" q) (String "M" rest) = false ->
  contains (String "M" q) (String "M" rest) = false.
Proof.
  intros Hrest Hhead. cbn [contains]. rewrite Hhead.
  by rewrite not_M_contains.
Qed.

(** A line that does not hold [M104 S1] holds no standby marker, stripped
    or not. *)
Lemma no_standby_marker line :
  contains "M104 S1" line = false ->
  forall tool, contains (standby_marker tool) (strip line) = false.
Proof.
  intros H tool.
  destruct (contains (standby_marker tool) (strip line)) eqn:E; [|done].
  apply contains_strip_inv in E. unfold standby_marker in E.
  change ("M104 S100 T" +:+ str_N tool)
    with ("M104 S1" +:+ ("00 T" +:+ str_N tool)) in E.
  apply contains_prefix in E. congruence.
Qed.

Ltac not_M_string :=
  rewrite ?all_chars_app, ?str_N_not_M;
  try match goal with
      | H : all_chars not_M _ = true |- _ => rewrite H
      end;
  reflexivity.

(** The line at hand does not hold [M104 S1]: it is a literal, or holds no
    [M], or holds one at its head only. *)
Ltac no_M104_S1 :=
  first
    [ reflexivity
    | apply not_M_contains; not_M_string
    | rewrite append_cons; apply contains_M_head;
      [not_M_string|reflexivity] ].

Ltac no_M104_S1_lines :=
  repeat (apply Forall_cons; split; [no_M104_S1|]); try apply Forall_nil_2.

Lemma block_no_standby_marker cfg tool :
  Forall (fun line => contains "M104 S1" line = false)
    (generate_shutdown_commands cfg tool).
Proof.
  unfold generate_shutdown_commands.
  destruct (cfg_add_comments cfg), (cfg_shutdown_heater cfg),
    (cfg_shutdown_fan cfg); cbn [app]; no_M104_S1_lines.
Qed.

Lemma passed_over_lines (ls : list string) :
  Forall inert ls -> Forall (fun l => full_line l = true) ls ->
  Forall (fun l => contains "M104 S1" l = false) ls ->
  Forall passed_over ls.
Proof.
  rewrite !Forall_forall. intros H1 H2 H3 l Hl. split_and!.
  - by apply H1.
  - by apply H2.
  - by apply no_standby_marker, H3.
Qed.

(** X11: whatever the configuration and the tool, every line of a
    shutdown block is passed over by the analyzer (it is no mode change, no
    origin reset, no tool selection and no move with extrusion), holds the
    standby marker of no tool, and ends with the only line break it
    holds. *)
Theorem block_lines_are_passed_over cfg tool :
  Forall passed_over (generate_shutdown_commands cfg tool).
Proof.
  apply passed_over_lines;
    [apply block_inert|apply block_full_lines|apply block_no_standby_marker].
Qed.

Lemma tool_report_no_standby_marker p tool :
  Forall (fun line => contains "M104 S1" line = false) (tool_report p tool).
Proof.
  unfold tool_report, tool_report_lines.
  destruct (usage_list p tool); [constructor|].
  destruct (decide (tool ∈ shutdown_inserted p)); unfold str_nat;
    no_M104_S1_lines.
Qed.

Lemma report_no_standby_marker timestamp p :
  all_chars not_M timestamp = true ->
  Forall (fun line => contains "M104 S1" line = false)
    (fst (generate_report timestamp p)).
Proof.
  intros Hts. destruct (generate_report_spec timestamp p) as [-> _].
  rewrite !Forall_app. split_and!.
  - unfold report_head. cbv zeta. rewrite !Forall_app. unfold str_nat.
    split_and!.
    + destruct (dry_run p); no_M104_S1_lines.
    + destruct (Nat.ltb 0 (total_tool_changes p)); no_M104_S1_lines.
    + no_M104_S1_lines.
  - apply Forall_bind. apply Forall_forall. intros t _.
    apply tool_report_no_standby_marker.
  - unfold report_foot. no_M104_S1_lines.
Qed.

(** X12: with a time stamp of digits, dashes, colons and spaces, every
    line of the report is passed over by the analyzer, holds the standby
    marker of no tool, and ends with the only line break it holds. *)
Theorem report_lines_are_passed_over timestamp p :
  all_chars stamp_char timestamp = true ->
  Forall passed_over (fst (generate_report timestamp p)).
Proof.
  intros Hts. apply passed_over_lines.
  - apply report_inert.
  - apply report_full_lines.
    revert Hts. apply all_chars_impl, stamp_char_no_break.
  - apply report_no_standby_marker.
    revert Hts. apply all_chars_impl, stamp_char_not_M.
Qed.

Lemma report_lines_are_passed_over_witness :
  all_chars stamp_char "2026-01-01 10:00:00" = true
  /\ Forall passed_over
       (fst (generate_report "2026-01-01 10:00:00"
               (analyze_tool_usage (loaded (readlines relay_file))))).
Proof.
  split; [reflexivity|].
  apply (report_lines_are_passed_over "2026-01-01 10:00:00"). reflexivity.
Defined.

(** ** The whole run *)

(** What a run leaves behind. *)
Lemma process_outcome set_iter timestamp content f d :
  let p1 := analyze_tool_usage (set_lines content (init f d)) in
  let r := insert_shutdown_commands set_iter p1 in
  let o := process set_iter timestamp content (init f d) in
  (total_tools p1 = ∅ ->
   success o = false /\ built o = [] /\ saved o = None /\ backup o = None
   /\ final o = p1)
  /\ (total_tools p1 <> ∅ ->
      success o = true
      /\ built o = fst (insert_report timestamp (fst r) (snd r))
      /\ saved o = (if d then None else Some (built o))
      /\ backup o = (if d then None else Some content)
      /\ final o = snd (insert_report timestamp (fst r) (snd r))).
Proof.
  cbv zeta. unfold process. split; intros Hne.
  - by rewrite decide_True.
  - rewrite decide_False by done.
    destruct (analyzed_fresh content f d) as (Hl & Hc & Hsh & Hd).
    destruct (insert_shutdown_commands_spec set_iter
                (analyze_tool_usage (set_lines content (init f d))))
      as (Hl2 & Hc2 & _ & Hd2 & _).
    destruct (insert_shutdown_commands set_iter
                (analyze_tool_usage (set_lines content (init f d))))
      as [out2 p2]. cbn [fst snd] in *.
    rewrite Hc2, Hc. cbn [cfg_generate_report default_config].
    destruct (insert_report_spec timestamp out2 p2) as (_ & _ & _ & Hf).
    destruct (generate_report_spec timestamp p2) as [_ Hs].
    destruct (insert_report timestamp out2 p2) as [out3 p3].
    cbn [fst snd] in *. subst p3.
    destruct Hs as (Hl3 & Hc3 & _ & _ & Hd3 & _).
    rewrite Hd3, Hd2, Hd, Hc3, Hc2, Hc, Hl3, Hl2, Hl.
    by destruct d.
Qed.







Lemma insert_report_snd timestamp out p :
  snd (insert_report timestamp out p) = snd (generate_report timestamp p).
Proof.
  unfold insert_report. by destruct (generate_report timestamp p).
Qed.










(** ** The script and the files *)






(** ** The tools a run shuts down *)

Section ShutdownSet.

Variable set_iter : gset N -> list N.
Hypothesis set_iter_perm : forall s, set_iter s ≡ₚ elements s.
Variable timestamp : string.

(** X17: a run shuts down exactly the tools that have a recorded
    extrusion and whose standby marker stands in some line of the file; a
    tool that is selected but never extrudes is not shut down. *)
Theorem shut_down_iff_used_and_standby content f d tool :
  let p1 := analyze_tool_usage (set_lines content (init f d)) in
  let o := process set_iter timestamp content (init f d) in
  tool ∈ shutdown_inserted (final o)
  <-> usage_list p1 tool <> []
      /\ exists raw,
          raw ∈ content /\ contains (standby_marker tool) (strip raw) = true.
Proof.
  cbv zeta.
  set (p1 := analyze_tool_usage (set_lines content (init f d))).
  destruct (process_outcome set_iter timestamp content f d) as [H0 H1].
  fold p1 in H0, H1.
  destruct (analyzed_fresh content f d) as (Hl & _ & Hsh & _).
  fold p1 in Hl, Hsh.
  pose proof (usage_inv_analyzed content f d) as (Hknown & _).
  fold p1 in Hknown.
  destruct (decide (total_tools p1 = ∅)) as [E|Hne].
  - destruct (H0 E) as (_ & _ & _ & _ & ->). rewrite Hsh. split.
    + intros H. by apply elem_of_empty in H.
    + intros [Hu _]. apply Hknown in Hu. rewrite E in Hu.
      by apply elem_of_empty in Hu.
  - destruct (H1 Hne) as (_ & _ & _ & _ & ->).
    rewrite insert_report_snd.
    destruct (generate_report_spec timestamp
                (snd (insert_shutdown_commands set_iter p1)))
      as (_ & _ & _ & _ & -> & _).
    destruct (insert_shutdown_commands_spec set_iter p1)
      as (_ & _ & _ & _ & _ & _ & -> & _).
    rewrite Hsh, (right_id_L ∅ (∪)), elem_of_list_to_set, elem_of_shut_tools.
    rewrite shuts_down_iff, Hl. split.
    + intros [Hin Hmark]. split; [|done].
      apply list_elem_of_fmap in Hin as ([t last] & Ht & Hin).
      cbn in Ht. subst t.
      by apply (elem_of_planned_entries set_iter set_iter_perm p1 tool last
                  Hknown) in Hin as [Hu _].
    + intros [Hu Hmark]. split; [|done].
      apply list_elem_of_fmap. exists (tool, max_list (usage_list p1 tool)).
      split; [done|].
      by apply (elem_of_planned_entries set_iter set_iter_perm p1).
Qed.

End ShutdownSet.

Lemma shut_down_iff_used_and_standby_witness :
  let content :=
    readlines relay_file ++ ["T2" +:+ nl; "M104 S100 T2" +:+ nl] in
  let p1 := analyze_tool_usage (set_lines content (init "print.gcode" false)) in
  let o := process elements "2026-01-01 10:00:00" content
             (init "print.gcode" false) in
  (forall s : gset N, elements s ≡ₚ elements s)
  /\ shutdown_inserted (final o) = {[0%N; 1%N]}
  /\ usage_list p1 2 = []
  /\ (2%N ∈ shutdown_inserted (final o)
      <-> usage_list p1 2 <> []
          /\ exists raw,
              raw ∈ content /\ contains (standby_marker 2) (strip raw) = true).
Proof.
  cbv zeta. split; [intros s; reflexivity|].
  split; [vm_compute; reflexivity|]. split; [vm_compute; reflexivity|].
  exact (shut_down_iff_used_and_standby elements (fun s => reflexivity _)
           "2026-01-01 10:00:00" _ "print.gcode" false 2%N).
Defined.

(** ** The keys of the dictionaries *)

Lemma dom_dd_get {V} (d : V) k (m : gmap N V) :
  dom (snd (dd_get d k m)) = {[k]} ∪ dom m.
Proof.
  unfold dd_get. destruct (m !! k) as [v|] eqn:E; cbn.
  - apply elem_of_dom_2 in E. set_solver.
  - by rewrite dom_insert_L.
Qed.

Lemma dom_count_change tool p :
  dom (tool_changes (count_change tool p)) = {[tool]} ∪ dom (tool_changes p)
  /\ tool_usage (count_change tool p) = tool_usage p.
Proof.
  unfold count_change. pose proof (dom_dd_get 0 tool (tool_changes p)) as H.
  destruct (dd_get 0 tool (tool_changes p)) as [n m]. cbn in *.
  rewrite dom_insert_L, H. split; [set_solver|done].
Qed.

Lemma dom_record_usage tool n p :
  dom (tool_usage (record_usage tool n p)) = {[tool]} ∪ dom (tool_usage p).
Proof.
  unfold record_usage. pose proof (dom_dd_get [] tool (tool_usage p)) as H.
  destruct (dd_get [] tool (tool_usage p)) as [l m]. cbn in *.
  rewrite dom_insert_L, H. set_solver.
Qed.

Lemma dom_summary_fold (ts : list N) p :
  let p' := foldl summary_line p ts in
  dom (tool_usage p') = list_to_set ts ∪ dom (tool_usage p)
  /\ dom (tool_changes p') = list_to_set ts ∪ dom (tool_changes p).
Proof.
  revert p. induction ts as [|t ts IH]; intros p.
  - cbn. split; set_solver.
  - cbn [foldl list_to_set]. destruct (IH (summary_line p t)) as [-> ->].
    unfold summary_line. cbn. rewrite !dom_dd_get. split; set_solver.
Qed.

(** X18: after the analysis of a freshly loaded file the keys of both
    dictionaries are exactly the known tools: the loop enters a key only
    together with its tool, and the reads of the summary enter the default
    for every known tool that has no key yet. *)
Theorem dictionaries_hold_the_known_tools content f d :
  let p := analyze_tool_usage (set_lines content (init f d)) in
  dom (tool_usage p) = total_tools p /\ dom (tool_changes p) = total_tools p.
Proof.
  cbv zeta.
  pose (I := fun (pre : list string) (st : Locals * Processor) =>
    dom (tool_usage (snd st)) ⊆ total_tools (snd st)
    /\ dom (tool_changes (snd st)) ⊆ total_tools (snd st)).
  assert (I content (analyze_from 0 content
                       (init_locals, set_lines content (init f d)))) as H.
  { apply analyze_from_fresh_invariant; [split; set_solver|].
    intros pre raw [loc p] [Hu Hc]. unfold I in *. cbn [fst snd] in *.
    rewrite analyze_line_classify. cbv zeta.
    set (loc' := if is_layer_marker raw then _ else loc).
    destruct (classify raw) as [m|v|id|v|]; cbn [snd]; try done.
    - destruct (select_tool_effect id loc' p)
        as (_ & _ & _ & _ & _ & -> & -> & _).
      split; [set_solver|].
      unfold select_tool. destruct loc' as [prev start first]. cbn.
      destruct start; cbn; [set_solver|]. destruct first; cbn; [set_solver|].
      destruct prev as [prev|]; cbn; [|set_solver].
      destruct (negb (N.eqb prev id)); cbn; [|set_solver].
      destruct (dom_count_change id p) as [-> _]. set_solver.
    - destruct (track_extrusion_frame (length pre) v p) as (_ & -> & _).
      rewrite track_extrusion_tools.
      unfold track_extrusion, exceeds_tolerance.
      destruct (e_mode p);
        match goal with
        | |- context [float_gt ?a ?b] => destruct (float_gt a b)
        end; cbn; try (split; set_solver).
      + rewrite (dom_record_usage (current_tool p) (length pre)
                   (set_e_pos v p)). cbn. split; set_solver.
      + rewrite dom_record_usage. split; set_solver. }
  destruct H as [Hu Hc]. unfold analyze_tool_usage, print_summary.
  cbn [lines set_lines].
  set (q := snd (analyze_from 0 content
                   (init_locals, set_lines content (init f d)))) in *.
  destruct (dom_summary_fold (sorted_tools (total_tools q)) q) as [-> ->].
  destruct (print_summary_fold_frame (sorted_tools (total_tools q)) q)
    as (_ & _ & _ & -> & _).
  assert (list_to_set (sorted_tools (total_tools q)) = total_tools q) as ->.
  { apply set_eq. intros t.
    by rewrite elem_of_list_to_set, elem_of_sorted_tools. }
  split; set_solver.
Qed.

(** ** Tool numbers, printed and read *)







